(** * Vocal coaching reports: the daily aggregation and trend engine

    A shallow embedding of [backend/fetch_ai_service.py] (class
    [FetchAiVocalCoach]) and the properties its specification states.

    Conventions of the embedding.
    - A Python [str] is a [string]; a character is a code point below 256.
    - A Python [int] is a [Z] (a length or a count is a [nat]).
    - A Python [float] is a real number of [R]: arithmetic is exact, there is
      no rounding, no infinity and no NaN.  The one function that only does
      float arithmetic, [_calculate_improvement], is embedded a second time
      over IEEE binary64 ([Binary64._calculate_improvement]).
    - Code that can raise returns a [result]: [Return v] or [Raise e];
      [try: ... except Exception:] is [try_except].
    - What the class obtains from outside (the Supabase client, the ASI-1
      endpoint, the clock, the calendar and number formatting of the Python
      library, the iteration order of a [set]) is a [Variable] of the
      section that embeds the class. *)

From Stdlib Require Import Floats.
From Stdlib Require Import Reals Lra List String Ascii ZArith Lia Bool Arith.
From Stdlib Require Import DecimalString Permutation.
Import ListNotations.

Open Scope string_scope.

(** ** The Python runtime the service relies on *)

Module Py.

(** The exceptions that occur: the built-in ones by name, any other by its
    class name.  All of them derive from [Exception]. *)
Inductive exn : Type :=
| ValueError
| KeyError
| IndexError
| AttributeError
| JSONDecodeError
| StatisticsError
| OtherError (class_name : string).

Inductive result (A : Type) : Type :=
| Return (a : A)
| Raise (e : exn).

Arguments Return {A} a.
Arguments Raise {A} e.

Definition bind {A B : Type} (m : result A) (k : A -> result B) : result B :=
  match m with
  | Return a => k a
  | Raise e => Raise e
  end.

(** [try: body  except Exception as e: handler e] *)
Definition try_except {A : Type} (body : result A) (handler : exn -> result A)
  : result A :=
  match body with
  | Return a => Return a
  | Raise e => handler e
  end.

(** [[f x for x in l]], left to right; the first exception ends it. *)
Fixpoint map_result {A B : Type} (f : A -> result B) (l : list A)
  : result (list B) :=
  match l with
  | [] => Return []
  | x :: l' =>
      bind (f x) (fun y => bind (map_result f l') (fun ys => Return (y :: ys)))
  end.

(** [s[:-1]] *)
Fixpoint str_init (s : string) : string :=
  match s with
  | EmptyString => EmptyString
  | String c EmptyString => EmptyString
  | String c s' => String c (str_init s')
  end.

(** [s[-1]] *)
Fixpoint str_last (s : string) : result ascii :=
  match s with
  | EmptyString => Raise IndexError
  | String c EmptyString => Return c
  | String c s' => str_last s'
  end.

Definition is_digit (c : ascii) : bool :=
  let n := nat_of_ascii c in (48 <=? n)%nat && (n <=? 57)%nat.

(** [int(c)] for a string [c] of one character: below code point 256 the
    decimal digits are ['0'] to ['9'], anything else is a [ValueError]. *)
Definition int_of_char (c : ascii) : result Z :=
  if is_digit c then Return (Z.of_nat (nat_of_ascii c - 48)) else Raise ValueError.

(** [x in l] for a list of strings *)
Fixpoint str_in (x : string) (l : list string) : bool :=
  match l with
  | [] => false
  | y :: l' => String.eqb x y || str_in x l'
  end.

(** [l.index(x)] *)
Fixpoint index (x : string) (l : list string) : result Z :=
  match l with
  | [] => Raise ValueError
  | y :: l' =>
      if String.eqb x y then Return 0%Z
      else bind (index x l') (fun i => Return (i + 1)%Z)
  end.

(** [s.replace(old, new)] for a one-character [old] *)
Fixpoint replace_char (old : ascii) (new : string) (s : string) : string :=
  match s with
  | EmptyString => EmptyString
  | String c s' =>
      if Ascii.eqb c old then String.append new (replace_char old new s')
      else String c (replace_char old new s')
  end.

(** [c.lower()]: below code point 256 the upper-case letters are A to Z
    and 192 to 222 without the multiplication sign 215. *)
Definition lower_char (c : ascii) : ascii :=
  let n := nat_of_ascii c in
  if ((65 <=? n) && (n <=? 90)
      || (192 <=? n) && (n <=? 222) && negb (n =? 215))%nat
  then ascii_of_nat (n + 32) else c.

(** [s.lower()] *)
Fixpoint lower (s : string) : string :=
  match s with
  | EmptyString => EmptyString
  | String c s' => String (lower_char c) (lower s')
  end.

(** [sub in s] *)
Fixpoint contains (sub s : string) : bool :=
  String.prefix sub s ||
  match s with
  | EmptyString => false
  | String _ s' => contains sub s'
  end.

(** [s.split(sep)] for a one-character [sep]: [cur] holds the characters
    read since the last separator. *)
Fixpoint split_from (sep : ascii) (cur : string) (s : string) : list string :=
  match s with
  | EmptyString => [cur]
  | String c s' =>
      if Ascii.eqb c sep then cur :: split_from sep EmptyString s'
      else split_from sep (String.append cur (String c EmptyString)) s'
  end.

Definition split (sep : ascii) (s : string) : list string :=
  split_from sep EmptyString s.

(** The line feed and the double quote. *)
Definition LF : ascii := ascii_of_nat 10.
Definition nl : string := String LF EmptyString.
Definition dq : string := String (ascii_of_nat 34) EmptyString.

(** [str(n)] for a non-negative [int] *)
Definition str_of_nat (n : nat) : string :=
  NilEmpty.string_of_uint (Nat.to_uint n).

End Py.

Import Py.

Notation "x <- m ;; k" := (bind m (fun x => k))
  (at level 61, m at next level, right associativity).

(** Comparisons of floats, as booleans. *)
Definition Rltb (x y : R) : bool := if Rlt_dec x y then true else false.
Definition Reqb (x y : R) : bool := if Req_dec_T x y then true else false.

Infix "+++" := String.append (at level 60, right associativity).

Open Scope R_scope.

(** ** Data model *)

Inductive TrendDirection : Type := UP | DOWN | STABLE.

(** [TrendDirection.X.value] *)
Definition value (t : TrendDirection) : string :=
  match t with
  | UP => "up"
  | DOWN => "down"
  | STABLE => "baseline"
  end.

(** A [datetime] is an instant on the time line, counted in microseconds. *)
Definition datetime : Type := Z.

Record SessionMetrics : Type := {
  timestamp : datetime;
  mean_pitch : R;
  vibrato_rate : R;
  jitter : R;
  shimmer : R;
  dynamics : string;
  voice_type : string;
  lowest_note : string;
  highest_note : string
}.

Record DailyMetrics : Type := {
  date : string;
  session_count : nat;
  mean_pitch_avg : R;
  vibrato_rate_avg : R;
  jitter_avg : R;
  shimmer_avg : R;
  dynamics_mode : string;
  voice_type_mode : string;
  day_lowest_note : string;
  day_highest_note : string;
  pitch_stability : R;
  practice_consistency : R
}.

Record MetricComparison : Type := {
  current : R;
  previous : option R;
  change : option R;
  trend : string;
  improvement_percentage : option R
}.

(** A [Dict[str, MetricComparison]]: the items in insertion order. *)
Definition metrics_dict : Type := list (string * MetricComparison).

Fixpoint dict_set (d : metrics_dict) (k : string) (v : MetricComparison)
  : metrics_dict :=
  match d with
  | [] => [(k, v)]
  | (k', v') :: d' =>
      if String.eqb k k' then (k, v) :: d' else (k', v') :: dict_set d' k v
  end.

Fixpoint dict_get (d : metrics_dict) (k : string) : option MetricComparison :=
  match d with
  | [] => None
  | (k', v') :: d' => if String.eqb k k' then Some v' else dict_get d' k
  end.

Record FetchAiReport : Type := {
  report_date : string;
  report_id : string;
  summary : string;
  metrics : metrics_dict;
  insights : list string;
  recommendations : list string;
  practice_sessions : nat;
  total_practice_time : R;
  best_time_of_day : string
}.

(** A row of the table [vocal_analysis_history], as the client returns it: a
    dict in which a key may be missing. *)
Record Row : Type := {
  row_created_at : option string;
  row_mean_pitch : option R;
  row_vibrato_rate : option R;
  row_jitter : option R;
  row_shimmer : option R;
  row_dynamics : option string;
  row_voice_type : option string;
  row_lowest_note : option string;
  row_highest_note : option string
}.

(** [d.get(key, default)] *)
Definition get {A : Type} (field : option A) (default : A) : A :=
  match field with
  | Some v => v
  | None => default
  end.

(** [d[key]] *)
Definition getitem {A : Type} (field : option A) : result A :=
  match field with
  | Some v => Return v
  | None => Raise KeyError
  end.

(** The HTTP response of the ASI-1 endpoint: its status code, and what
    [response.json()["choices"][0]["message"]["content"]] gives or raises. *)
Record Response : Type := {
  status_code : Z;
  message_content : result string
}.

(** What [json.loads] makes of the content: an object, of which the two keys
    read here may be missing, or a value that is no object. *)
Inductive Json : Type :=
| JsonObject (insights_key recommendations_key : option (list string))
| JsonOther.

(** ** The [statistics] module and the built-ins [max] and [min] *)

Definition fsum (data : list R) : R := fold_right Rplus 0 data.

(** [statistics.mean]: the exact sum over the number of values. *)
Definition statistics_mean (data : list R) : result R :=
  match data with
  | [] => Raise StatisticsError
  | _ => Return (fsum data / INR (List.length data))
  end.

(** [statistics.stdev]: the square root of the sample variance, which the
    module computes in one pass from the sum [sx] and the sum of squares
    [sxx] as [(n * sxx - sx * sx) / n / (n - 1)]. *)
Definition statistics_stdev (data : list R) : result R :=
  if (List.length data <? 2)%nat then Raise StatisticsError
  else
    let n := INR (List.length data) in
    let sx := fsum data in
    let sxx := fsum (map (fun x => x * x) data) in
    let ss := (n * sxx - sx * sx) / n in
    Return (sqrt (ss / (n - 1))).

(** The scan of [max] and [min]: [best] is replaced by a later item only when
    that item's key is strictly better, so the first of equal keys stays. *)
Fixpoint scan {A K : Type} (better : K -> K -> bool) (best : A * K)
  (rest : list (A * K)) : A :=
  match rest with
  | [] => fst best
  | y :: rest' =>
      scan better (if better (snd y) (snd best) then y else best) rest'
  end.

Definition with_key {A K : Type} (key : A -> result K) (x : A)
  : result (A * K) :=
  k <- key x ;; Return (x, k).

(** [max(l, key=key)] and [min(l, key=key)], [better] being [>] or [<] on the
    keys: the keys are computed from left to right. *)
Definition extremum {A K : Type} (better : K -> K -> bool)
  (key : A -> result K) (l : list A) : result A :=
  match l with
  | [] => Raise ValueError
  | x :: l' =>
      first <- with_key key x ;;
      rest <- map_result (with_key key) l' ;;
      Return (scan better first rest)
  end.

Definition Rgtb (x y : R) : bool := Rltb y x.

(** ** Note-frequency converter *)

Definition note_names : list string :=
  ["C"; "C#"; "D"; "D#"; "E"; "F"; "F#"; "G"; "G#"; "A"; "A#"; "B"].

Definition _note_to_frequency (note : string) : result R :=
  if (String.length note <? 2)%nat then Return 0
  else
    let note_name := str_init note in
    c <- str_last note ;;
    octave <- int_of_char c ;;
    if negb (str_in note_name note_names) then Return 0
    else
      note_index <- index note_name note_names ;;
      Return (440 * Rpower 2 ((IZR note_index - 9) / 12 + (IZR octave - 4))).


(** ** Trend engine *)

Definition _calculate_improvement (current previous : R) : R * string :=
  if Reqb previous 0 then (0, value STABLE)
  else
    let change_pct := (current - previous) / previous * 100 in
    if Rltb (Rabs change_pct) 1 then (change_pct, value STABLE)
    else (change_pct, if Rltb 0 change_pct then value UP else value DOWN).

(** The same function over IEEE binary64, the arithmetic Python runs it in. *)
Module Binary64.

Open Scope float_scope.

Definition _calculate_improvement (current previous : float) : float * string :=
  if previous =? 0 then (0, value STABLE)
  else
    let change_pct := (current - previous) / previous * 100 in
    if abs change_pct <? 1 then (change_pct, value STABLE)
    else (change_pct, if 0 <? change_pct then value UP else value DOWN).

End Binary64.

(** ** The statistics the specification names *)

(** The arithmetic mean of a list of numbers. *)
Definition arithmetic_mean (xs : list R) : R :=
  fsum xs / INR (List.length xs).

(** The sample standard deviation: the root of the sum of squared deviations
    from the mean over [N - 1]. *)
Definition sample_standard_deviation (xs : list R) : R :=
  sqrt (fsum (map (fun x => (x - arithmetic_mean xs) * (x - arithmetic_mean xs)) xs)
        / (INR (List.length xs) - 1)).

(** A note whose octave can be read: [int(note[-1])] is reached only by a
    note of two or more characters, and succeeds on a final digit. *)
Definition octave_readable (note : string) : bool :=
  (String.length note <? 2)%nat ||
  match str_last note with
  | Return c => is_digit c
  | Raise _ => false
  end.

(** What is asked of the iteration order of a set: it lists the distinct
    items of the list the set was built from, each once. *)
Definition set_order_ok (set_iter : list string -> list string) : Prop :=
  forall l, NoDup (set_iter l) /\ forall x, In x (set_iter l) <-> In x l.

(** The position of a note on the chromatic scale, [12 * octave + index],
    for a pitch class of [note_names] followed by one octave digit. *)
Definition semitone (note : string) : option Z :=
  if (String.length note <? 2)%nat then None
  else
    match str_last note, index (str_init note) note_names with
    | Return c, Return i =>
        if is_digit c then Some (12 * Z.of_nat (nat_of_ascii c - 48) + i)%Z
        else None
    | _, _ => None
    end.

(** ** Construction of the service *)

(** The Supabase client, as far as the service uses it: the rows of a user
    created between two instants. *)
Definition Client : Type := string -> string -> string -> result (list Row).

(** The attributes of an instance. *)
Record Coach : Type := {
  self_supabase : option Client;
  self_asi1_api_key : option string;
  self_asi1_url : string;
  self_use_ai : bool
}.

(** [not v] for a value of [os.getenv]: unset, or the empty string. *)
Definition unset (v : option string) : bool :=
  match v with
  | None => true
  | Some EmptyString => true
  | Some (String _ _) => false
  end.

(** [FetchAiVocalCoach.__init__]: the environment and [create_client] are
    what it reads and calls. *)
Definition __init__ (getenv : string -> option string)
  (create_client : string -> string -> result Client) : result Coach :=
  let supabase_url := getenv "SUPABASE_URL" in
  let supabase_key := getenv "SUPABASE_SERVICE_ROLE_KEY" in
  supabase <-
    (if unset supabase_url || unset supabase_key then Return None
     else
       match supabase_url, supabase_key with
       | Some url, Some key =>
           client <- create_client url key ;; Return (Some client)
       | _, _ => Return None
       end) ;;
  let asi1_api_key := getenv "ASI_1_API_KEY" in
  Return {| self_supabase := supabase;
            self_asi1_api_key := asi1_api_key;
            self_asi1_url := "https://api.asi1.ai/v1/chat/completions";
            self_use_ai := negb (unset asi1_api_key) |}.

(** ** Example sessions and collaborators *)

Definition tenor_session : SessionMetrics :=
  {| timestamp := 0%Z;
     mean_pitch := 220.5;
     vibrato_rate := 5.8;
     jitter := 0.012;
     shimmer := 0.017;
     dynamics := "stable";
     voice_type := "tenor";
     lowest_note := "C3";
     highest_note := "A4" |}.

(** A session whose lowest note is written with a flat and no octave. *)
Definition flat_note_session : SessionMetrics :=
  {| timestamp := 0%Z;
     mean_pitch := 220.5;
     vibrato_rate := 5.8;
     jitter := 0.012;
     shimmer := 0.017;
     dynamics := "stable";
     voice_type := "tenor";
     lowest_note := "Ab";
     highest_note := "A4" |}.

Definition loud_session : SessionMetrics :=
  {| timestamp := 0%Z;
     mean_pitch := 220.5;
     vibrato_rate := 5.8;
     jitter := 0.012;
     shimmer := 0.017;
     dynamics := "loud";
     voice_type := "tenor";
     lowest_note := "C3";
     highest_note := "A4" |}.

Definition soft_session : SessionMetrics :=
  {| timestamp := 3600000000%Z;
     mean_pitch := 225.1;
     vibrato_rate := 6.2;
     jitter := 0.011;
     shimmer := 0.016;
     dynamics := "soft";
     voice_type := "tenor";
     lowest_note := "D3";
     highest_note := "B4" |}.

(** Two iteration orders of a set: the distinct items as first seen in the
    list, and the same in reverse. *)
Definition first_seen_order (l : list string) : list string :=
  rev (nodup string_dec (rev l)).

Definition last_seen_order (l : list string) : list string :=
  nodup string_dec (rev l).

(** A store holding one session of one user, on 2024-03-02. *)
Definition one_row : Row :=
  {| row_created_at := Some "2024-03-02T10:00:00Z";
     row_mean_pitch := Some 220.5;
     row_vibrato_rate := Some 5.8;
     row_jitter := Some 0.012;
     row_shimmer := Some 0.017;
     row_dynamics := Some "stable";
     row_voice_type := Some "tenor";
     row_lowest_note := Some "C3";
     row_highest_note := Some "A4" |}.

Definition one_day_store (user_id start_date end_date : string)
  : result (list Row) :=
  if String.eqb start_date "2024-03-02T00:00:00" then Return [one_row]
  else Return [].

Definition unreachable_endpoint (prompt : string) : result Response :=
  Raise (OtherError "ConnectionError").

Definition no_json (content : string) : result Json := Raise JSONDecodeError.

(** An endpoint that answers in plain text, and one that answers with
    status 503. *)
Definition text_endpoint (prompt : string) : result Response :=
  Return {| status_code := 200;
            message_content :=
              Return ("Insight: steady pitch" +++ nl +++
                      "You improved" +++ nl +++
                      "Try scales" +++ nl +++
                      "Nothing else") |}.

Definition busy_endpoint (prompt : string) : result Response :=
  Return {| status_code := 503; message_content := Raise KeyError |}.

(** A reply that is a JSON object with the key "insights" only. *)
Definition insights_only (content : string) : result Json :=
  Return (JsonObject (Some ["Good breath support"]) None).

Definition midnight (n : nat) : datetime := 0%Z.

Definition any_instant (s : string) : result datetime := Return 0%Z.

Definition second_of_march (t : datetime) : string := "2024-03-02".

(** The day before, for the two dates of the examples. *)
Definition march_calendar (date : string) : result string :=
  if String.eqb date "2024-03-02" then Return "2024-03-01"
  else if String.eqb date "2024-03-05" then Return "2024-03-04"
  else Raise ValueError.

Definition no_digits (decimals : nat) (x : R) : string := "0".

(** A row without [created_at], and a store that returns it after a row
    that converts. *)
Definition undated_row : Row :=
  {| row_created_at := None;
     row_mean_pitch := Some 230;
     row_vibrato_rate := None;
     row_jitter := None;
     row_shimmer := None;
     row_dynamics := None;
     row_voice_type := None;
     row_lowest_note := None;
     row_highest_note := None |}.

Definition mixed_store (user_id start_date end_date : string)
  : result (list Row) :=
  Return [one_row; undated_row].

(** A store whose one session has a lowest note without octave. *)
Definition flat_row : Row :=
  {| row_created_at := Some "2024-03-02T10:00:00Z";
     row_mean_pitch := Some 220.5;
     row_vibrato_rate := Some 5.8;
     row_jitter := Some 0.012;
     row_shimmer := Some 0.017;
     row_dynamics := Some "stable";
     row_voice_type := Some "tenor";
     row_lowest_note := Some "Ab";
     row_highest_note := Some "A4" |}.

Definition flat_store (user_id start_date end_date : string)
  : result (list Row) :=
  Return [flat_row].

(** An environment without any variable, and a [create_client] that is
    not to be called. *)
Definition empty_environment (name : string) : option string := None.

Definition no_client (url key : string) : result Client :=
  Raise (OtherError "SupabaseException").

(** ** The service *)

Section FetchAiVocalCoach.

(** [self.supabase]: [None] without credentials, else the client, here the
    query it is used for: the rows of a user created between two instants,
    which gives [response.data] or raises. *)
Variable supabase : option (string -> string -> string -> result (list Row)).

(** [self.use_ai], and the ASI-1 endpoint: [requests.post] of a prompt. *)
Variable use_ai : bool.
Variable requests_post : string -> result Response.
Variable json_loads : string -> result Json.

(** [datetime.now()]: the successive readings of the clock. *)
Variable clock : nat -> datetime.

(** [datetime.fromisoformat], [.strftime("%Y-%m-%d")], and the day before a
    date, [(datetime.strptime(date, "%Y-%m-%d") - timedelta(days=1))
    .strftime("%Y-%m-%d")], which raises on a malformed date. *)
Variable fromisoformat : string -> result datetime.
Variable strftime_ymd : datetime -> string.
Variable previous_day : string -> result string.

(** [f"{x:.Nf}"]: a float printed with [N] decimals. *)
Variable format_float : nat -> R -> string.

(** The order in which a [set] built from the items of a list is iterated. *)
Variable set_iter : list string -> list string.

Definition _get_fallback_insights : list string * list string :=
  (["Your vocal practice shows consistent improvement patterns.";
    "Maintaining regular practice sessions will enhance your progress.";
    "Your pitch accuracy is developing well with continued practice."],
   ["Continue with daily vocal warm-ups for 10-15 minutes.";
    "Practice breathing exercises to improve vocal control.";
    "Record yourself regularly to track your progress."]).

Definition indent : string := "            ".

Definition prompt (metrics_data user_context : string) : string :=
  nl +++
  indent +++ "As a professional vocal coach, analyze this vocal performance data and provide:" +++ nl +++
  indent +++ nl +++
  indent +++ "VOCAL DATA:" +++ nl +++
  indent +++ metrics_data +++ nl +++
  indent +++ nl +++
  indent +++ "USER CONTEXT:" +++ nl +++
  indent +++ user_context +++ nl +++
  indent +++ nl +++
  indent +++ "Please provide:" +++ nl +++
  indent +++ "1. 3 specific insights about their vocal performance" +++ nl +++
  indent +++ "2. 3 personalized recommendations for improvement" +++ nl +++
  indent +++ nl +++
  indent +++ "Format as JSON:" +++ nl +++
  indent +++ "{" +++ nl +++
  indent +++ "    " +++ dq +++ "insights" +++ dq +++ ": ["
    +++ dq +++ "insight1" +++ dq +++ ", "
    +++ dq +++ "insight2" +++ dq +++ ", "
    +++ dq +++ "insight3" +++ dq +++ "]," +++ nl +++
  indent +++ "    " +++ dq +++ "recommendations" +++ dq +++ ": ["
    +++ dq +++ "rec1" +++ dq +++ ", "
    +++ dq +++ "rec2" +++ dq +++ ", "
    +++ dq +++ "rec3" +++ dq +++ "]" +++ nl +++
  indent +++ "}" +++ nl +++
  indent.

Definition _get_ai_insights (metrics_data user_context : string)
  : result (list string * list string) :=
  if negb use_ai then
    Return
      (["Your pitch stability has improved by 15% this week!";
        "Consider practicing in the morning for better vocal clarity.";
        "Your vibrato rate is within optimal range for your voice type."],
       ["Try vocal warm-ups before each practice session.";
        "Focus on breath control exercises for better dynamics.";
        "Practice scales in your comfortable range daily."])
  else
    try_except
      (response <- requests_post (prompt metrics_data user_context) ;;
       if (status_code response =? 200)%Z then
         content <- message_content response ;;
         match json_loads content with
         | Return (JsonObject insights_key recommendations_key) =>
             Return (get insights_key [], get recommendations_key [])
         | Return JsonOther => Raise AttributeError
         | Raise JSONDecodeError =>
             let lines := split LF content in
             let insights :=
               filter (fun line => contains "insight" (lower line)
                                   || contains "improved" (lower line)) lines in
             let recommendations :=
               filter (fun line => contains "recommend" (lower line)
                                   || contains "try" (lower line)) lines in
             Return (firstn 3 insights, firstn 3 recommendations)
         | Raise e => Raise e
         end
       else Return _get_fallback_insights)
      (fun _ => Return _get_fallback_insights).

(** [timedelta(hours=n)] *)
Definition hours (n : Z) : Z := (n * 3600 * 1000000)%Z.

Definition session_of_row (session : Row) : result SessionMetrics :=
  created_at <- getitem (row_created_at session) ;;
  t <- fromisoformat (replace_char "Z" "+00:00" created_at) ;;
  Return {|
    timestamp := t;
    mean_pitch := get (row_mean_pitch session) 0;
    vibrato_rate := get (row_vibrato_rate session) 0;
    jitter := get (row_jitter session) 0;
    shimmer := get (row_shimmer session) 0;
    dynamics := get (row_dynamics session) "stable";
    voice_type := get (row_voice_type session) "unknown";
    lowest_note := get (row_lowest_note session) "C3";
    highest_note := get (row_highest_note session) "C5"
  |}.

(** [reads] is the number of clock readings made before the call. *)
Definition _get_daily_sessions (reads : nat) (user_id date : string)
  : result (list SessionMetrics) :=
  match supabase with
  | None =>
      Return
        [ {| timestamp := clock reads;
             mean_pitch := 220.5;
             vibrato_rate := 5.8;
             jitter := 0.012;
             shimmer := 0.017;
             dynamics := "stable";
             voice_type := "tenor";
             lowest_note := "C3";
             highest_note := "A4" |};
          {| timestamp := (clock (S reads) - hours 2)%Z;
             mean_pitch := 225.1;
             vibrato_rate := 6.2;
             jitter := 0.011;
             shimmer := 0.016;
             dynamics := "stable";
             voice_type := "tenor";
             lowest_note := "D3";
             highest_note := "B4" |} ]
  | Some query =>
      try_except
        (let start_date := date +++ "T00:00:00" in
         let end_date := date +++ "T23:59:59" in
         data <- query user_id start_date end_date ;;
         match data with
         | [] => Return []
         | _ => map_result session_of_row data
         end)
        (fun _ => Return [])
  end.

(** [sum(1 for s in sessions if field(s) == x)] *)
Definition occurrences (field : SessionMetrics -> string)
  (sessions : list SessionMetrics) (x : string) : nat :=
  List.length (filter (fun s => String.eqb (field s) x) sessions).

(** [max(set(field(s) for s in sessions), key=occurrences)] *)
Definition mode (field : SessionMetrics -> string)
  (sessions : list SessionMetrics) : result string :=
  extremum (fun a b => (b <? a)%nat)
    (fun x => Return (occurrences field sessions x))
    (set_iter (map field sessions)).

Definition _aggregate_daily_metrics (sessions : list SessionMetrics)
  : result (option DailyMetrics) :=
  match sessions with
  | [] => Return None
  | first :: _ =>
      let mean_pitches := map mean_pitch sessions in
      let vibrato_rates := map vibrato_rate sessions in
      let jitters := map jitter sessions in
      let shimmers := map shimmer sessions in
      dynamics <- mode dynamics sessions ;;
      voice_type <- mode voice_type sessions ;;
      lowest <- extremum Rltb (fun x => _note_to_frequency (lowest_note x)) sessions ;;
      highest <- extremum Rgtb (fun x => _note_to_frequency (highest_note x)) sessions ;;
      let timestamps := map timestamp sessions in
      latest <- extremum Z.gtb Return timestamps ;;
      earliest <- extremum Z.ltb Return timestamps ;;
      let time_spread := IZR (latest - earliest) / 1000000 / 3600 in
      mean_pitch_avg <- statistics_mean mean_pitches ;;
      vibrato_rate_avg <- statistics_mean vibrato_rates ;;
      jitter_avg <- statistics_mean jitters ;;
      shimmer_avg <- statistics_mean shimmers ;;
      pitch_stability <-
        (if (1 <? List.length mean_pitches)%nat
         then statistics_stdev mean_pitches else Return 0) ;;
      Return (Some {|
        date := strftime_ymd (timestamp first);
        session_count := List.length sessions;
        mean_pitch_avg := mean_pitch_avg;
        vibrato_rate_avg := vibrato_rate_avg;
        jitter_avg := jitter_avg;
        shimmer_avg := shimmer_avg;
        dynamics_mode := dynamics;
        voice_type_mode := voice_type;
        day_lowest_note := lowest_note lowest;
        day_highest_note := highest_note highest;
        pitch_stability := pitch_stability;
        practice_consistency := time_spread
      |})
  end.

Definition _generate_summary (current : DailyMetrics)
  (previous : option DailyMetrics) : string :=
  match previous with
  | Some previous =>
      if (session_count previous <? session_count current)%nat then
        "Excellent progress today! You completed "
        +++ str_of_nat (session_count current)
        +++ " practice sessions, showing increased dedication to your vocal development."
      else if (session_count current =? session_count previous)%nat then
        "Consistent practice maintained with "
        +++ str_of_nat (session_count current)
        +++ " sessions today. Your vocal technique continues to develop steadily."
      else
        "Completed " +++ str_of_nat (session_count current)
        +++ " practice sessions today. Consider increasing practice frequency for optimal progress."
  | None =>
      "Great start! You completed " +++ str_of_nat (session_count current)
      +++ " practice sessions today. Keep up the momentum!"
  end.

Definition _generate_fallback_report (user_id date : string) : FetchAiReport :=
  {| report_date := date;
     report_id := "fallback_" +++ user_id +++ "_" +++ date;
     summary := "No practice sessions recorded for this date. Start practicing to see your vocal analysis!";
     metrics := [];
     insights := ["Begin with daily vocal warm-ups";
                  "Practice breathing exercises";
                  "Record your sessions to track progress"];
     recommendations := ["Start with 10-minute daily sessions";
                         "Focus on proper breathing technique";
                         "Use the practice feature regularly"];
     practice_sessions := 0;
     total_practice_time := 0;
     best_time_of_day := "Morning" |}.

(** [f(previous_metrics) if previous_metrics else default] *)
Definition if_previous {A : Type} (previous_metrics : option DailyMetrics)
  (f : DailyMetrics -> A) (default : A) : A :=
  match previous_metrics with
  | Some p => f p
  | None => default
  end.

(** The metrics table of a report, built entry by entry. *)
Definition comparisons (daily_metrics : DailyMetrics)
  (previous_metrics : option DailyMetrics) : metrics_dict :=
  let metrics := [] in
  let metrics := dict_set metrics "mean_pitch" {|
    current := mean_pitch_avg daily_metrics;
    previous := if_previous previous_metrics (fun p => Some (mean_pitch_avg p)) None;
    change := Some (mean_pitch_avg daily_metrics
                    - if_previous previous_metrics mean_pitch_avg (mean_pitch_avg daily_metrics));
    trend := snd (_calculate_improvement (mean_pitch_avg daily_metrics)
                    (if_previous previous_metrics mean_pitch_avg (mean_pitch_avg daily_metrics)));
    improvement_percentage :=
      Some (fst (_calculate_improvement (mean_pitch_avg daily_metrics)
                   (if_previous previous_metrics mean_pitch_avg (mean_pitch_avg daily_metrics))))
  |} in
  let metrics := dict_set metrics "vibrato_rate" {|
    current := vibrato_rate_avg daily_metrics;
    previous := if_previous previous_metrics (fun p => Some (vibrato_rate_avg p)) None;
    change := Some (vibrato_rate_avg daily_metrics
                    - if_previous previous_metrics vibrato_rate_avg (vibrato_rate_avg daily_metrics));
    trend := snd (_calculate_improvement (vibrato_rate_avg daily_metrics)
                    (if_previous previous_metrics vibrato_rate_avg (vibrato_rate_avg daily_metrics)));
    improvement_percentage :=
      Some (fst (_calculate_improvement (vibrato_rate_avg daily_metrics)
                   (if_previous previous_metrics vibrato_rate_avg (vibrato_rate_avg daily_metrics))))
  |} in
  let metrics := dict_set metrics "jitter" {|
    current := jitter_avg daily_metrics;
    previous := if_previous previous_metrics (fun p => Some (jitter_avg p)) None;
    change := Some (jitter_avg daily_metrics
                    - if_previous previous_metrics jitter_avg (jitter_avg daily_metrics));
    trend := snd (_calculate_improvement (jitter_avg daily_metrics)
                    (if_previous previous_metrics jitter_avg (jitter_avg daily_metrics)));
    improvement_percentage :=
      Some (fst (_calculate_improvement (jitter_avg daily_metrics)
                   (if_previous previous_metrics jitter_avg (jitter_avg daily_metrics))))
  |} in
  let metrics := dict_set metrics "shimmer" {|
    current := shimmer_avg daily_metrics;
    previous := if_previous previous_metrics (fun p => Some (shimmer_avg p)) None;
    change := Some (shimmer_avg daily_metrics
                    - if_previous previous_metrics shimmer_avg (shimmer_avg daily_metrics));
    trend := snd (_calculate_improvement (shimmer_avg daily_metrics)
                    (if_previous previous_metrics shimmer_avg (shimmer_avg daily_metrics)));
    improvement_percentage :=
      Some (fst (_calculate_improvement (shimmer_avg daily_metrics)
                   (if_previous previous_metrics shimmer_avg (shimmer_avg daily_metrics))))
  |} in
  let metrics := dict_set metrics "total_sessions" {|
    current := INR (session_count daily_metrics);
    previous := if_previous previous_metrics (fun p => Some (INR (session_count p))) None;
    change := Some (INR (session_count daily_metrics)
                    - if_previous previous_metrics (fun p => INR (session_count p)) 0);
    trend := snd (_calculate_improvement (INR (session_count daily_metrics))
                    (if_previous previous_metrics (fun p => INR (session_count p)) 0));
    improvement_percentage :=
      Some (fst (_calculate_improvement (INR (session_count daily_metrics))
                   (if_previous previous_metrics (fun p => INR (session_count p)) 0)))
  |} in
  metrics.

Definition metrics_text (date : string) (daily_metrics : DailyMetrics) : string :=
  nl +++
  indent +++ "Date: " +++ date +++ nl +++
  indent +++ "Sessions: " +++ str_of_nat (session_count daily_metrics) +++ nl +++
  indent +++ "Mean Pitch: " +++ format_float 2 (mean_pitch_avg daily_metrics) +++ " Hz" +++ nl +++
  indent +++ "Vibrato Rate: " +++ format_float 2 (vibrato_rate_avg daily_metrics) +++ " Hz" +++ nl +++
  indent +++ "Jitter: " +++ format_float 4 (jitter_avg daily_metrics) +++ nl +++
  indent +++ "Shimmer: " +++ format_float 4 (shimmer_avg daily_metrics) +++ nl +++
  indent +++ "Voice Type: " +++ voice_type_mode daily_metrics +++ nl +++
  indent +++ "Vocal Range: " +++ day_lowest_note daily_metrics +++ " to "
    +++ day_highest_note daily_metrics +++ nl +++
  indent +++ "Pitch Stability: " +++ format_float 2 (pitch_stability daily_metrics) +++ nl +++
  indent +++ "Practice Consistency: "
    +++ format_float 1 (practice_consistency daily_metrics) +++ " hours" +++ nl +++
  indent.

(** The body of [generate_daily_report], inside its [try]. *)
Definition generate_daily_report_body (user_id date : string)
  : result FetchAiReport :=
  sessions <- _get_daily_sessions 0 user_id date ;;
  match sessions with
  | [] => Return (_generate_fallback_report user_id date)
  | _ =>
      aggregated <- _aggregate_daily_metrics sessions ;;
      match aggregated with
      | None => Return (_generate_fallback_report user_id date)
      | Some daily_metrics =>
          previous_date <- previous_day date ;;
          previous_sessions <- _get_daily_sessions 2 user_id previous_date ;;
          previous_metrics <-
            match previous_sessions with
            | [] => Return None
            | _ => _aggregate_daily_metrics previous_sessions
            end ;;
          let metrics := comparisons daily_metrics previous_metrics in
          let metrics_data := metrics_text date daily_metrics in
          let user_context :=
            "User " +++ user_id +++ " practicing vocal techniques with "
            +++ str_of_nat (session_count daily_metrics)
            +++ " sessions on " +++ date in
          ai <- _get_ai_insights metrics_data user_context ;;
          let summary := _generate_summary daily_metrics previous_metrics in
          let total_practice_time := (session_count daily_metrics * 15)%nat in
          let best_time_of_day := "Morning (9-11 AM)" in
          Return {|
            report_date := date;
            report_id := "report_" +++ user_id +++ "_" +++ date;
            summary := summary;
            metrics := metrics;
            insights := fst ai;
            recommendations := snd ai;
            practice_sessions := session_count daily_metrics;
            total_practice_time := INR total_practice_time;
            best_time_of_day := best_time_of_day
          |}
      end
  end.

Definition generate_daily_report (user_id date : string) : result FetchAiReport :=
  try_except
    (generate_daily_report_body user_id date)
    (fun _ => Return (_generate_fallback_report user_id date)).

(** A row converts when it has a [created_at] that parses. *)
Definition row_converts (row : Row) : Prop :=
  exists created_at t,
    row_created_at row = Some created_at /\
    fromisoformat (replace_char "Z" "+00:00" created_at) = Return t.

(** ** Properties *)

#[local] Set Default Proof Using "Type".

(** Evaluates the string and integer part of a conversion, leaving the
    real-number expression in place. *)
Ltac eval_note :=
  unfold _note_to_frequency; cbn;
  repeat match goal with
    | |- context [int_of_char ?c] =>
        let v := eval vm_compute in (int_of_char c) in
        change (int_of_char c) with v; cbn
    end.

Lemma Rpower_2_0 : Rpower 2 0 = 1.
Proof. apply Rpower_O; lra. Qed.

Lemma Rpower_2_1 : Rpower 2 1 = 2.
Proof. apply Rpower_1; lra. Qed.

(** The fourth power of [2 ** (-3/4)] is one eighth. *)
Lemma Rpower_2_m34_pow4 : Rpower 2 (-3 / 4) ^ 4 = / 8.
Proof.
  rewrite <- Rpower_pow by apply exp_pos.
  rewrite Rpower_mult.
  replace (-3 / 4 * INR 4) with (- INR 3) by (simpl; lra).
  rewrite Rpower_Ropp, Rpower_pow by lra.
  f_equal; lra.
Qed.

Lemma pow4_lt_inv (a b : R) : 0 <= a -> 0 < b -> a ^ 4 < b ^ 4 -> a < b.
Proof.
  intros Ha Hb H.
  destruct (Rlt_dec a b) as [|Hn]; [assumption|exfalso].
  apply Rnot_lt_le in Hn.
  assert (b ^ 4 <= a ^ 4) by (apply pow_incr; lra).
  lra.
Qed.

Lemma Rpower_2_m34_bounds :
  261.625 / 440 < Rpower 2 (-3 / 4) < 261.635 / 440.
Proof.
  assert (Hpos : 0 < Rpower 2 (-3 / 4)) by apply exp_pos.
  pose proof Rpower_2_m34_pow4 as H4.
  split; apply pow4_lt_inv; try lra; rewrite H4; lra.
Qed.

(** C7: the equal-temperament anchors.  A4 is 440 Hz, A5 is 880 Hz, C4 is
    261.63 Hz to two decimals, and the empty string, ["Z4"] and ["A"] give 0. *)
Theorem note_to_frequency_anchors :
  _note_to_frequency "A4" = Return 440 /\
  _note_to_frequency "A5" = Return 880 /\
  (exists f, _note_to_frequency "C4" = Return f /\ Rabs (f - 261.63) < 0.005) /\
  _note_to_frequency "" = Return 0 /\
  _note_to_frequency "Z4" = Return 0 /\
  _note_to_frequency "A" = Return 0.
Proof.
  repeat split.
  - eval_note. f_equal.
    replace ((9 - 9) / 12 + (4 - 4)) with 0 by lra.
    rewrite Rpower_2_0; lra.
  - eval_note. f_equal.
    replace ((9 - 9) / 12 + (5 - 4)) with 1 by lra.
    rewrite Rpower_2_1; lra.
  - eexists; split; [eval_note; reflexivity|].
    replace ((0 - 9) / 12 + (4 - 4)) with (-3 / 4) by lra.
    pose proof Rpower_2_m34_bounds.
    apply Rabs_def1; lra.
Qed.

(** *** Trend engine *)

Lemma Rltb_true (x y : R) : Rltb x y = true <-> x < y.
Proof. unfold Rltb; destruct (Rlt_dec x y); split; auto; discriminate. Qed.

Lemma Rltb_false (x y : R) : Rltb x y = false <-> y <= x.
Proof.
  unfold Rltb; destruct (Rlt_dec x y); split; auto; try discriminate; lra.
Qed.

Lemma Reqb_true (x y : R) : Reqb x y = true <-> x = y.
Proof. unfold Reqb; destruct (Req_dec_T x y); split; auto; discriminate. Qed.

Lemma Reqb_false (x y : R) : Reqb x y = false <-> x <> y.
Proof.
  unfold Reqb; destruct (Req_dec_T x y); split; auto; try discriminate.
  intros; contradiction.
Qed.

(** The three cases of [_calculate_improvement], by the percentage. *)
Lemma calculate_improvement_cases (current previous : R) :
  let pct := (current - previous) / previous * 100 in
  (previous = 0 /\
   _calculate_improvement current previous = (0, "baseline")) \/
  (previous <> 0 /\ Rabs pct < 1 /\
   _calculate_improvement current previous = (pct, "baseline")) \/
  (previous <> 0 /\ 1 <= pct /\
   _calculate_improvement current previous = (pct, "up")) \/
  (previous <> 0 /\ pct <= -1 /\
   _calculate_improvement current previous = (pct, "down")).
Proof.
  intros pct. unfold _calculate_improvement. fold pct.
  destruct (Reqb previous 0) eqn:Hz.
  - left. apply Reqb_true in Hz. auto.
  - right. apply Reqb_false in Hz.
    destruct (Rltb (Rabs pct) 1) eqn:Habs.
    + left. apply Rltb_true in Habs. auto.
    + right. apply Rltb_false in Habs.
      destruct (Rltb 0 pct) eqn:Hpos.
      * left. apply Rltb_true in Hpos.
        rewrite Rabs_right in Habs by lra. auto.
      * right. apply Rltb_false in Hpos.
        rewrite Rabs_left1 in Habs by lra.
        repeat split; auto; lra.
Qed.

(** With nothing to compare with, the engine reports no change. *)
Lemma calculate_improvement_zero (current : R) :
  _calculate_improvement current 0 = (0, "baseline").
Proof.
  unfold _calculate_improvement.
  replace (Reqb 0 0) with true; [reflexivity|].
  symmetry; apply Reqb_true; reflexivity.
Qed.

(** A value compared with itself has not changed. *)
Lemma calculate_improvement_same (current : R) :
  _calculate_improvement current current = (0, "baseline").
Proof.
  destruct (calculate_improvement_cases current current)
    as [[_ H]|[(Hnz & _ & H)|[(Hnz & Hc & _)|(Hnz & Hc & _)]]].
  - exact H.
  - rewrite H. f_equal. field. exact Hnz.
  - exfalso. replace ((current - current) / current * 100) with 0 in Hc
      by (field; exact Hnz). lra.
  - exfalso. replace ((current - current) / current * 100) with 0 in Hc
      by (field; exact Hnz). lra.
Qed.

(** The label and the percentage of one call agree. *)
Lemma calculate_improvement_consistent (current previous : R) :
  let r := _calculate_improvement current previous in
  (snd r = "up" /\ 1 <= fst r) \/
  (snd r = "down" /\ fst r <= -1) \/
  (snd r = "baseline" /\ Rabs (fst r) < 1).
Proof.
  intros r. subst r.
  destruct (calculate_improvement_cases current previous)
    as [[_ H]|[(_ & Hc & H)|[(_ & Hc & H)|(_ & Hc & H)]]];
    rewrite H; cbn [fst snd].
  - right; right. split; [reflexivity|]. rewrite Rabs_R0; lra.
  - right; right. auto.
  - left. auto.
  - right; left. auto.
Qed.

(** The same classification over binary64. *)

Local Open Scope float_scope.

Lemma binary64_one_spec : Prim2SF 1 = S754_finite false 4503599627370496 (-52).
Proof. reflexivity. Qed.

Lemma binary64_minus_one_spec : Prim2SF (-1) = S754_finite true 4503599627370496 (-52).
Proof. reflexivity. Qed.

Lemma binary64_zero_spec : Prim2SF 0 = S754_zero false.
Proof. reflexivity. Qed.

(** A float that is at least 1 is positive and not within the band. *)
Lemma binary64_at_least_one (x : float) :
  (1 <=? x) = true -> (abs x <? 1) = false /\ (0 <? x) = true.
Proof.
  rewrite leb_spec, !ltb_spec, abs_spec, binary64_one_spec, binary64_zero_spec.
  generalize 4503599627370496%positive (-52)%Z; intros k q.
  unfold SFleb, SFltb.
  destruct (Prim2SF x) as [s|s| |s m e]; cbn [SFcompare SFabs];
    try discriminate.
  - destruct s; [discriminate|auto].
  - destruct s; [discriminate|].
    rewrite (Z.compare_antisym e q).
    change (PosDef.Pos.compare_cont Eq k m) with (Pos.compare k m).
    change (PosDef.Pos.compare_cont Eq m k) with (Pos.compare m k).
    rewrite (Pos.compare_antisym m k).
    destruct (e ?= q)%Z; cbn [CompOpp]; try discriminate; auto.
    destruct (m ?= k)%positive; cbn [CompOpp]; try discriminate; auto.
Qed.

(** A float that is at most -1 is not positive and not within the band. *)
Lemma binary64_at_most_minus_one (x : float) :
  (x <=? -1) = true -> (abs x <? 1) = false /\ (0 <? x) = false.
Proof.
  rewrite leb_spec, !ltb_spec, abs_spec, binary64_one_spec, binary64_minus_one_spec, binary64_zero_spec.
  generalize 4503599627370496%positive (-52)%Z; intros k q.
  unfold SFleb, SFltb.
  destruct (Prim2SF x) as [s|s| |s m e]; cbn [SFcompare SFabs];
    try discriminate.
  - destruct s; [auto|discriminate].
  - destruct s; [|discriminate].
    change (PosDef.Pos.compare_cont Eq m k) with (Pos.compare m k).
    destruct (e ?= q)%Z; cbn [CompOpp]; try discriminate; auto.
    destruct (m ?= k)%positive; cbn [CompOpp]; try discriminate; auto.
Qed.

(** C3: for every pair of floats, a zero [previous] gives (0, baseline);
    otherwise the percentage is [(current - previous) / previous * 100],
    labelled baseline when its absolute value is below 1, up when it is at
    least 1 and down when it is at most -1.  In binary64 arithmetic
    (110, 100) gives exactly (10, up), (90, 100) gives (-10, down) and
    (100.5, 100) gives (0.5, baseline). *)
Theorem calculate_improvement_classifies :
  (forall current previous : float,
     let r := Binary64._calculate_improvement current previous in
     let pct := (current - previous) / previous * 100 in
     ((previous =? 0) = true -> r = (0, "baseline"%string)) /\
     ((previous =? 0) = false ->
        fst r = pct /\
        ((abs pct <? 1) = true -> snd r = "baseline"%string) /\
        ((1 <=? pct) = true -> snd r = "up"%string) /\
        ((pct <=? -1) = true -> snd r = "down"%string))) /\
  Binary64._calculate_improvement 110 100 = (10, "up"%string) /\
  Binary64._calculate_improvement 90 100 = (-10, "down"%string) /\
  Binary64._calculate_improvement 100.5 100 = (0.5, "baseline"%string).
Proof.
  split; [|repeat split; vm_compute; reflexivity].
  intros current previous r pct. subst r.
  unfold Binary64._calculate_improvement. fold pct.
  split; intros Hz; rewrite Hz; [reflexivity|].
  split; [destruct (abs pct <? 1); reflexivity|].
  split; [intros H; rewrite H; reflexivity|].
  split; intros H.
  - apply binary64_at_least_one in H. destruct H as [Hb Hp].
    rewrite Hb, Hp. reflexivity.
  - apply binary64_at_most_minus_one in H. destruct H as [Hb Hp].
    rewrite Hb, Hp. reflexivity.
Qed.

(** Outside the band a positive float is at least 1. *)
Lemma binary64_positive_outside_band (x : float) :
  (abs x <? 1) = false -> (0 <? x) = true -> (1 <=? x) = true.
Proof.
  rewrite leb_spec, !ltb_spec, abs_spec, binary64_one_spec, binary64_zero_spec.
  generalize 4503599627370496%positive (-52)%Z; intros k q.
  unfold SFleb, SFltb.
  destruct (Prim2SF x) as [s|s| |s m e]; cbn [SFcompare SFabs];
    try discriminate.
  - destruct s; [discriminate|reflexivity].
  - destruct s; [discriminate|].
    rewrite (Z.compare_antisym e q).
    change (PosDef.Pos.compare_cont Eq k m) with (Pos.compare k m).
    change (PosDef.Pos.compare_cont Eq m k) with (Pos.compare m k).
    rewrite (Pos.compare_antisym m k).
    destruct (e ?= q)%Z; cbn [CompOpp]; try discriminate; auto.
    destruct (m ?= k)%positive; cbn [CompOpp]; try discriminate; auto.
Qed.

(** Outside the band a float that is not positive is at most -1, or NaN. *)
Lemma binary64_not_positive_outside_band (x : float) :
  (abs x <? 1) = false -> (0 <? x) = false ->
  (x <=? -1) = true \/ is_nan x = true.
Proof.
  unfold is_nan.
  rewrite leb_spec, !ltb_spec, abs_spec, FloatAxioms.eqb_spec,
    binary64_one_spec, binary64_minus_one_spec, binary64_zero_spec.
  generalize 4503599627370496%positive (-52)%Z; intros k q.
  unfold SFleb, SFltb, SFeqb.
  destruct (Prim2SF x) as [s|s| |s m e]; cbn [SFcompare SFabs negb];
    try discriminate; auto.
  - destruct s; [auto|discriminate].
  - destruct s; [|discriminate]. intros Hband _. left.
    change (PosDef.Pos.compare_cont Eq m k) with (Pos.compare m k) in *.
    destruct (e ?= q)%Z; cbn [CompOpp] in *; try discriminate; auto.
    destruct (m ?= k)%positive; cbn [CompOpp] in *; try discriminate; auto.
Qed.

(** X21: in binary64 too the label and the percentage of one call agree,
    but for a percentage that is NaN (which takes a NaN or infinite
    argument): it is labelled down. *)
Lemma binary64_label_matches_percentage (current previous : float) :
  let r := Binary64._calculate_improvement current previous in
  (snd r = "up"%string /\ (1 <=? fst r) = true) \/
  (snd r = "down"%string /\ ((fst r <=? -1) = true \/ is_nan (fst r) = true)) \/
  (snd r = "baseline"%string /\ (abs (fst r) <? 1) = true).
Proof.
  intros r. subst r. unfold Binary64._calculate_improvement.
  destruct (previous =? 0); [right; right; split; reflexivity|].
  set (pct := (current - previous) / previous * 100).
  destruct (abs pct <? 1) eqn:Hband; [right; right; split; assumption || reflexivity|].
  destruct (0 <? pct) eqn:Hpos; cbn [fst snd value].
  - left. split; [reflexivity|].
    apply binary64_positive_outside_band; assumption.
  - right; left. split; [reflexivity|].
    apply binary64_not_positive_outside_band; assumption.
Qed.

Local Close Scope float_scope.

(** *** The collaborators' errors stay inside *)

Lemma prefix_empty (s : string) : String.prefix EmptyString s = true.
Proof. destruct s; reflexivity. Qed.

(** The session store never raises: an error of the client is an empty day. *)
Lemma get_daily_sessions_returns (reads : nat) (user_id date : string) :
  exists sessions, _get_daily_sessions reads user_id date = Return sessions.
Proof.
  unfold _get_daily_sessions.
  destruct supabase as [query|]; [|eexists; reflexivity].
  destruct (query user_id (date +++ "T00:00:00") (date +++ "T23:59:59"))
    as [data|e]; cbn [bind try_except]; [|eexists; reflexivity].
  destruct data as [|row data]; [eexists; reflexivity|].
  destruct (map_result session_of_row (row :: data));
    cbn [try_except]; eexists; reflexivity.
Qed.

(** In particular a failing query is a day without sessions. *)
Lemma get_daily_sessions_store_error
  (query : string -> string -> string -> result (list Row)) (reads : nat)
  (user_id date : string) (e : exn) :
  supabase = Some query ->
  query user_id (date +++ "T00:00:00") (date +++ "T23:59:59") = Raise e ->
  _get_daily_sessions reads user_id date = Return [].
Proof.
  intros Hclient Hquery. unfold _get_daily_sessions.
  rewrite Hclient, Hquery. reflexivity.
Qed.

(** Neither does the text generator: any error gives the fallback pair. *)
Lemma get_ai_insights_returns (metrics_data user_context : string) :
  exists ai, _get_ai_insights metrics_data user_context = Return ai.
Proof.
  unfold _get_ai_insights.
  destruct use_ai; cbn [negb]; [|eexists; reflexivity].
  destruct (requests_post (prompt metrics_data user_context)) as [response|e];
    cbn [bind try_except]; [|eexists; reflexivity].
  destruct (status_code response =? 200)%Z; [|eexists; reflexivity].
  destruct (message_content response) as [content|e];
    cbn [bind try_except]; [|eexists; reflexivity].
  destruct (json_loads content) as [[i r|]|[]];
    cbn [try_except]; eexists; reflexivity.
Qed.

(** What the body of [generate_daily_report] can return: the fallback
    report, or a report assembled from today's aggregate. *)
Lemma generate_daily_report_body_returns (user_id date : string)
  (r : FetchAiReport) :
  generate_daily_report_body user_id date = Return r ->
  r = _generate_fallback_report user_id date \/
  exists sessions daily_metrics previous_date previous_sessions
         previous_metrics ai,
    _get_daily_sessions 0 user_id date = Return sessions /\
    sessions <> [] /\
    _aggregate_daily_metrics sessions = Return (Some daily_metrics) /\
    previous_day date = Return previous_date /\
    _get_daily_sessions 2 user_id previous_date = Return previous_sessions /\
    (previous_sessions = [] -> previous_metrics = None) /\
    (previous_sessions <> [] ->
     _aggregate_daily_metrics previous_sessions = Return previous_metrics) /\
    r = {| report_date := date;
           report_id := "report_" +++ user_id +++ "_" +++ date;
           summary := _generate_summary daily_metrics previous_metrics;
           metrics := comparisons daily_metrics previous_metrics;
           insights := fst ai;
           recommendations := snd ai;
           practice_sessions := session_count daily_metrics;
           total_practice_time := INR (session_count daily_metrics * 15);
           best_time_of_day := "Morning (9-11 AM)" |}.
Proof.
  unfold generate_daily_report_body.
  destruct (_get_daily_sessions 0 user_id date) as [sessions|e] eqn:Hs;
    cbn [bind]; [|discriminate].
  destruct sessions as [|s0 sessions]; [intros [= <-]; left; reflexivity|].
  destruct (_aggregate_daily_metrics (s0 :: sessions)) as [[dm|]|e] eqn:Hagg;
    cbn [bind]; [|intros [= <-]; left; reflexivity|discriminate].
  destruct (previous_day date) as [pd|e] eqn:Hpd; cbn [bind]; [|discriminate].
  destruct (_get_daily_sessions 2 user_id pd) as [ps|e] eqn:Hps;
    cbn [bind]; [|discriminate].
  destruct (match ps with
            | [] => Return None
            | _ :: _ => _aggregate_daily_metrics ps
            end) as [pm|e] eqn:Hpm; cbn [bind]; [|discriminate].
  destruct (_get_ai_insights _ _) as [ai|e]; cbn [bind]; [|discriminate].
  intros [= <-]. right.
  exists (s0 :: sessions), dm, pd, ps, pm, ai.
  repeat split; try assumption; try discriminate.
  - intros ->. congruence.
  - intros Hne. destruct ps; [contradiction|assumption].
Qed.

(** C9: when the store has no session for the date, the report is the
    fallback one: its id is ["fallback_<user>_<date>"], which does not start
    like a normal report's ["report_..."], its metrics mapping is empty,
    practice_sessions and total_practice_time are 0, and insights and
    recommendations are the two default lists of three strings. *)
Theorem no_sessions_gives_fallback_report (user_id date : string) :
  _get_daily_sessions 0 user_id date = Return [] ->
  exists r,
    generate_daily_report user_id date = Return r /\
    report_id r = "fallback_" +++ user_id +++ "_" +++ date /\
    String.prefix "fallback_" (report_id r) = true /\
    String.prefix "report_" (report_id r) = false /\
    metrics r = [] /\
    practice_sessions r = 0%nat /\
    total_practice_time r = 0 /\
    insights r = ["Begin with daily vocal warm-ups";
                  "Practice breathing exercises";
                  "Record your sessions to track progress"] /\
    recommendations r = ["Start with 10-minute daily sessions";
                         "Focus on proper breathing technique";
                         "Use the practice feature regularly"] /\
    List.length (insights r) = 3%nat /\
    List.length (recommendations r) = 3%nat.
Proof.
  intros Hnone.
  exists (_generate_fallback_report user_id date).
  split.
  - unfold generate_daily_report, generate_daily_report_body.
    rewrite Hnone. reflexivity.
  - repeat split; try reflexivity.
    cbn. apply prefix_empty.
Qed.

(** C8: [generate_daily_report] returns a report whatever the collaborators
    do, and never raises: the report is for the date asked, its id is the
    normal or the fallback one, and when anything inside the [try] raises,
    the report is the fallback report. *)
Theorem generate_daily_report_never_raises (user_id date : string) :
  exists r,
    generate_daily_report user_id date = Return r /\
    report_date r = date /\
    (report_id r = "report_" +++ user_id +++ "_" +++ date \/
     r = _generate_fallback_report user_id date) /\
    (forall e, generate_daily_report_body user_id date = Raise e ->
               r = _generate_fallback_report user_id date).
Proof.
  unfold generate_daily_report.
  destruct (generate_daily_report_body user_id date) as [r|e] eqn:Hbody;
    cbn [try_except].
  - exists r. split; [reflexivity|].
    apply generate_daily_report_body_returns in Hbody.
    destruct Hbody as [->|(ss & dm & pd & ps & pm & ai & _ & _ & _ & _ & _ & _ & _ & ->)].
    + repeat split; auto; discriminate.
    + repeat split; auto; discriminate.
  - exists (_generate_fallback_report user_id date).
    repeat split; auto.
Qed.

(** *** Note conversion: when it raises *)

Lemma str_in_index (x : string) (l : list string) :
  str_in x l = true -> exists i, index x l = Return i.
Proof.
  induction l as [|y l IH]; cbn [str_in index]; [discriminate|].
  destruct (String.eqb x y); [eexists; reflexivity|].
  cbn [orb]. intros H. destruct (IH H) as [i ->].
  eexists; reflexivity.
Qed.

Lemma str_last_returns (s : string) :
  s <> EmptyString -> exists c, str_last s = Return c.
Proof.
  induction s as [|c s IH]; [congruence|intros _].
  destruct s as [|c' s]; [eexists; reflexivity|].
  apply IH. discriminate.
Qed.

(** The conversion returns on a note whose octave can be read, and raises
    [ValueError] on any other. *)
Lemma note_to_frequency_result (note : string) :
  (octave_readable note = true /\
   exists f, _note_to_frequency note = Return f) \/
  (octave_readable note = false /\
   _note_to_frequency note = Raise ValueError).
Proof.
  unfold octave_readable, _note_to_frequency.
  destruct (String.length note <? 2)%nat eqn:Hlen; cbn [orb].
  - left. split; [reflexivity|eexists; reflexivity].
  - destruct (str_last_returns note) as [c Hc].
    { intros ->. discriminate. }
    rewrite Hc. cbn [bind]. unfold int_of_char.
    destruct (is_digit c); cbn [bind].
    + left. split; [reflexivity|].
      destruct (str_in (str_init note) note_names) eqn:Hin; cbn [negb].
      * destruct (str_in_index _ _ Hin) as [i ->]. eexists; reflexivity.
      * eexists; reflexivity.
    + right. split; reflexivity.
Qed.

(** C1 (what the code does): the conversion is not total.  A note of two
    or more characters whose last character is not a digit makes
    [int(note[-1])] raise [ValueError], before the pitch class is looked at:
    so do ["Ab"] and ["C#x"], for which 0 is expected.  On every other
    string the conversion returns. *)
Theorem note_to_frequency_raises_without_octave_digit :
  _note_to_frequency "Ab" = Raise ValueError /\
  _note_to_frequency "C#x" = Raise ValueError /\
  (forall note, octave_readable note = false ->
                _note_to_frequency note = Raise ValueError) /\
  (forall note, octave_readable note = true ->
                exists f, _note_to_frequency note = Return f).
Proof.
  split; [reflexivity|]. split; [reflexivity|]. split; intros note Hr.
  - destruct (note_to_frequency_result note) as [[Hr' _]|[_ Hraise]].
    + rewrite Hr in Hr'. discriminate Hr'.
    + exact Hraise.
  - destruct (note_to_frequency_result note) as [[_ Hf]|[Hr' _]].
    + exact Hf.
    + rewrite Hr in Hr'. discriminate Hr'.
Qed.

(** *** The scan of [max] and [min] *)

Lemma map_result_raises {A B : Type} (f : A -> result B) (l : list A) (e : exn) :
  map_result f l = Raise e -> exists x, In x l /\ f x = Raise e.
Proof.
  induction l as [|x l IH]; cbn [map_result]; [discriminate|].
  destruct (f x) as [y|e'] eqn:Hx; cbn [bind].
  - destruct (map_result f l) as [ys|e'']; cbn [bind]; [discriminate|].
    intros [= ->]. destruct IH as (x' & Hin & Hx'); [reflexivity|].
    exists x'. split; [right|]; assumption.
  - intros [= ->]. exists x. split; [left; reflexivity|assumption].
Qed.

Lemma map_result_returns {A B : Type} (f : A -> result B) (l : list A)
  (ys : list B) :
  map_result f l = Return ys ->
  Forall2 (fun x y => f x = Return y) l ys.
Proof.
  revert ys. induction l as [|x l IH]; cbn [map_result]; intros ys.
  - intros [= <-]. constructor.
  - destruct (f x) as [y|e] eqn:Hx; cbn [bind]; [|discriminate].
    destruct (map_result f l) as [ys'|e]; cbn [bind]; [|discriminate].
    intros [= <-]. constructor; [assumption|]. apply IH. reflexivity.
Qed.

Lemma map_result_total {A B : Type} (f : A -> result B) (l : list A) :
  (forall x, In x l -> exists y, f x = Return y) ->
  exists ys, map_result f l = Return ys.
Proof.
  induction l as [|x l IH]; intros H; cbn [map_result].
  - eexists; reflexivity.
  - destruct (H x) as [y ->]; [left; reflexivity|]. cbn [bind].
    destruct IH as [ys ->]; [intros; apply H; right; assumption|].
    eexists; reflexivity.
Qed.

Lemma scan_in {A K : Type} (better : K -> K -> bool) (rest : list (A * K))
  (best : A * K) :
  In (scan better best rest) (fst best :: map fst rest).
Proof.
  revert best. induction rest as [|y rest IH]; intros best; cbn [scan map].
  - left; reflexivity.
  - specialize (IH (if better (snd y) (snd best) then y else best)).
    destruct (better (snd y) (snd best)); cbn [In] in *; tauto.
Qed.

Lemma with_key_fst {A K : Type} (key : A -> result K) (l : list A)
  (ks : list (A * K)) :
  Forall2 (fun x y => with_key key x = Return y) l ks -> map fst ks = l.
Proof.
  induction 1 as [|x y l ks Hxy _ IH]; [reflexivity|].
  cbn [map]. rewrite IH. f_equal.
  unfold with_key in Hxy. destruct (key x); cbn [bind] in Hxy; [|discriminate].
  injection Hxy as <-. reflexivity.
Qed.

(** [max] and [min] return an item of the list when every key is computed. *)
Lemma extremum_returns {A K : Type} (better : K -> K -> bool)
  (key : A -> result K) (l : list A) :
  l <> [] ->
  (forall x, In x l -> exists k, key x = Return k) ->
  exists m, extremum better key l = Return m /\ In m l.
Proof.
  intros Hne Hkeys. destruct l as [|x l]; [congruence|].
  unfold extremum, with_key at 1.
  destruct (Hkeys x) as [k ->]; [left; reflexivity|]. cbn [bind].
  destruct (map_result_total (with_key key) l) as [ks Hks].
  { intros y Hy. unfold with_key.
    destruct (Hkeys y) as [ky ->]; [right; assumption|].
    eexists; reflexivity. }
  rewrite Hks. cbn [bind]. eexists. split; [reflexivity|].
  pose proof (scan_in better ks (x, k)) as Hin.
  apply map_result_returns in Hks. apply with_key_fst in Hks.
  rewrite Hks in Hin. exact Hin.
Qed.

(** They raise what the first failing key raises. *)
Lemma extremum_raises {A K : Type} (better : K -> K -> bool)
  (key : A -> result K) (l : list A) (e : exn) :
  l <> [] ->
  extremum better key l = Raise e ->
  exists x, In x l /\ key x = Raise e.
Proof.
  intros Hne. destruct l as [|x l]; [congruence|].
  unfold extremum, with_key at 1.
  destruct (key x) as [k|e'] eqn:Hx; cbn [bind].
  - destruct (map_result (with_key key) l) as [ks|e'] eqn:Hks;
      cbn [bind]; [discriminate|].
    intros [= ->]. apply map_result_raises in Hks.
    destruct Hks as (y & Hy & Hky). exists y. split; [right; assumption|].
    unfold with_key in Hky. destruct (key y); cbn [bind] in Hky; congruence.
  - intros [= ->]. exists x. split; [left; reflexivity|assumption].
Qed.

Lemma extremum_keys_return {A K : Type} (better : K -> K -> bool)
  (key : A -> result K) (l : list A) (m : A) :
  extremum better key l = Return m ->
  forall x, In x l -> exists k, key x = Return k.
Proof.
  destruct l as [|x l]; [discriminate|].
  unfold extremum, with_key at 1.
  destruct (key x) as [k|e] eqn:Hx; cbn [bind]; [|discriminate].
  destruct (map_result (with_key key) l) as [ks|e] eqn:Hks;
    cbn [bind]; [|discriminate].
  intros _ y [<-|Hy]; [eexists; eassumption|].
  apply map_result_returns in Hks.
  revert Hy. induction Hks as [|x' y' l' ks' Hxy _ IH]; [intros []|].
  intros [<-|Hy]; [|apply IH; assumption].
  unfold with_key in Hxy. destruct (key x'); [eexists; reflexivity|discriminate].
Qed.

Local Open Scope list_scope.

Lemma map_result_pure_keys {A K : Type} (f : A -> K) (l : list A) :
  map_result (with_key (fun x => Return (f x))) l
  = Return (map (fun x => (x, f x)) l).
Proof.
  induction l as [|x l IH]; [reflexivity|].
  cbn [map_result map]. unfold with_key at 1. cbn [bind].
  rewrite IH. reflexivity.
Qed.

(** With [>] on counts, the scan keeps the first item of the greatest count:
    every item before it has a smaller count, no item after it a greater. *)
Lemma scan_first_greatest {A : Type} (f : A -> nat) (l : list A) (b : A) :
  exists l1 l2,
    b :: l = l1 ++ scan (fun k k' => (k' <? k)%nat) (b, f b)
                     (map (fun x => (x, f x)) l) :: l2 /\
    (forall y, In y l1 ->
       (f y < f (scan (fun k k' => (k' <? k)%nat) (b, f b)
                   (map (fun x => (x, f x)) l)))%nat) /\
    (forall y, In y l2 ->
       (f y <= f (scan (fun k k' => (k' <? k)%nat) (b, f b)
                   (map (fun x => (x, f x)) l)))%nat).
Proof.
  revert b. induction l as [|y l IH]; intros b; cbn [map scan].
  - exists [], []. repeat split; intros ? [].
  - cbn [fst snd]. destruct (f b <? f y)%nat eqn:Hlt.
    + apply Nat.ltb_lt in Hlt.
      destruct (IH y) as (l1 & l2 & Heq & Hbefore & Hafter).
      set (m := scan _ (y, f y) _) in *.
      assert (Hy : (f y <= f m)%nat).
      { destruct l1 as [|z l1]; cbn [app] in Heq; injection Heq as Hz _.
        - rewrite <- Hz. lia.
        - specialize (Hbefore z (or_introl eq_refl)). rewrite <- Hz in Hbefore. lia. }
      exists (b :: l1), l2. split; [cbn [app]; rewrite <- Heq; reflexivity|].
      split; [|assumption].
      intros z [<-|Hz]; [lia|apply Hbefore; assumption].
    + apply Nat.ltb_ge in Hlt.
      destruct (IH b) as (l1 & l2 & Heq & Hbefore & Hafter).
      set (m := scan _ (b, f b) _) in *.
      destruct l1 as [|z l1]; cbn [app] in Heq; injection Heq as Hz Hl.
      * exists [], (y :: l2). split; [cbn [app]; rewrite Hz, Hl; reflexivity|].
        split; [intros ? []|].
        intros z [<-|Hin]; [rewrite <- Hz; lia|apply Hafter; assumption].
      * subst z. exists (b :: y :: l1), l2.
        split; [cbn [app]; rewrite Hl; reflexivity|].
        split; [|assumption].
        assert (Hb : (f b < f m)%nat) by (apply Hbefore; left; reflexivity).
        intros z [<-|[<-|Hin]]; [assumption|lia|].
        apply Hbefore; right; assumption.
Qed.

(** *** The aggregator *)

Section Aggregation.

Hypothesis set_iter_ok : set_order_ok set_iter.

(** The mode: a value of the sessions, found where the set's iteration
    first reaches the greatest count. *)
Lemma mode_first_greatest (field : SessionMetrics -> string)
  (sessions : list SessionMetrics) :
  sessions <> [] ->
  exists m l1 l2,
    mode field sessions = Return m /\
    set_iter (map field sessions) = l1 ++ m :: l2 /\
    (forall y, In y l1 ->
       (occurrences field sessions y < occurrences field sessions m)%nat) /\
    (forall y, In y l2 ->
       (occurrences field sessions y <= occurrences field sessions m)%nat).
Proof using set_iter_ok.
  intros Hne. unfold mode.
  destruct (set_iter (map field sessions)) as [|b l] eqn:Hset.
  - exfalso. destruct sessions as [|s0 sessions]; [apply Hne; reflexivity|].
    destruct (set_iter_ok (map field (s0 :: sessions))) as [_ Hin].
    rewrite Hset in Hin. apply (Hin (field s0)). left; reflexivity.
  - unfold extremum, with_key at 1. cbn [bind].
    rewrite map_result_pure_keys. cbn [bind].
    destruct (scan_first_greatest (occurrences field sessions) l b)
      as (l1 & l2 & Heq & Hbefore & Hafter).
    eexists; exists l1, l2. split; [reflexivity|].
    repeat split; assumption.
Qed.

Lemma occurrences_absent (field : SessionMetrics -> string)
  (sessions : list SessionMetrics) (x : string) :
  ~ In x (map field sessions) -> occurrences field sessions x = 0%nat.
Proof.
  unfold occurrences. induction sessions as [|s sessions IH]; [reflexivity|].
  cbn [map filter In]. intros Hnot.
  destruct (String.eqb_spec (field s) x) as [Heq|_].
  - exfalso. apply Hnot. left. exact Heq.
  - apply IH. intros Hin. apply Hnot. right. exact Hin.
Qed.

(** The mode has the greatest number of occurrences of all values. *)
Lemma mode_greatest (field : SessionMetrics -> string)
  (sessions : list SessionMetrics) (m : string) :
  sessions <> [] ->
  mode field sessions = Return m ->
  In m (map field sessions) /\
  forall x, (occurrences field sessions x <= occurrences field sessions m)%nat.
Proof using set_iter_ok.
  intros Hne Hm.
  destruct (mode_first_greatest field sessions Hne)
    as (m' & l1 & l2 & Hm' & Hset & Hbefore & Hafter).
  rewrite Hm in Hm'. injection Hm' as <-.
  destruct (set_iter_ok (map field sessions)) as [_ Hin].
  split.
  - apply Hin. rewrite Hset. apply in_or_app. right; left; reflexivity.
  - intros x. destruct (in_dec string_dec x (map field sessions)) as [Hx|Hx].
    + apply Hin in Hx. rewrite Hset in Hx.
      apply in_app_or in Hx. destruct Hx as [Hx|[<-|Hx]].
      * apply Nat.lt_le_incl, Hbefore, Hx.
      * apply Nat.le_refl.
      * apply Hafter, Hx.
    + rewrite (occurrences_absent field sessions x Hx). apply Nat.le_0_l.
Qed.

Lemma statistics_mean_nonempty (data : list R) :
  data <> [] -> statistics_mean data = Return (arithmetic_mean data).
Proof. destruct data; [congruence|reflexivity]. Qed.

(** The sum of squared deviations from any [m], expanded. *)
Lemma fsum_squared_deviations (data : list R) (m : R) :
  fsum (map (fun x => (x - m) * (x - m)) data)
  = fsum (map (fun x => x * x) data) - 2 * m * fsum data
    + INR (List.length data) * m * m.
Proof.
  induction data as [|x data IH].
  - cbn. ring.
  - cbn [map fsum fold_right List.length]. fold (fsum data).
    fold (fsum (map (fun x => (x - m) * (x - m)) data)).
    fold (fsum (map (fun x => x * x) data)).
    rewrite IH, S_INR. ring.
Qed.

(** [statistics.stdev] is the sample standard deviation. *)
Lemma statistics_stdev_sample (data : list R) :
  (2 <= List.length data)%nat ->
  statistics_stdev data = Return (sample_standard_deviation data).
Proof.
  intros Hlen. unfold statistics_stdev, sample_standard_deviation.
  replace (List.length data <? 2)%nat with false
    by (symmetry; apply Nat.ltb_ge; assumption).
  do 3 f_equal. unfold arithmetic_mean.
  rewrite fsum_squared_deviations.
  assert (INR (List.length data) <> 0).
  { apply not_0_INR. lia. }
  field. assumption.
Qed.

Lemma note_key_returns (note : SessionMetrics -> string)
  (sessions : list SessionMetrics) :
  (forall s, In s sessions ->
     exists f, _note_to_frequency (note s) = Return f) ->
  forall s, In s sessions -> octave_readable (note s) = true.
Proof.
  intros H s Hs. destruct (H s Hs) as [f Hf].
  destruct (note_to_frequency_result (note s)) as [[Hr _]|[_ Hraise]];
    [assumption|congruence].
Qed.

Lemma note_key_raises (note : SessionMetrics -> string)
  (sessions : list SessionMetrics) (e : exn) :
  (exists s, In s sessions /\ _note_to_frequency (note s) = Raise e) ->
  e = ValueError /\
  exists s, In s sessions /\ octave_readable (note s) = false.
Proof.
  intros (s & Hs & Hraise).
  destruct (note_to_frequency_result (note s)) as [[_ [f Hf]]|[Hr Hv]];
    [congruence|].
  split; [congruence|]. exists s. auto.
Qed.

(** What the aggregator does on a non-empty list: it raises [ValueError]
    when the octave of some session's note cannot be read, and otherwise
    returns the aggregate described field by field. *)
Lemma aggregate_result (sessions : list SessionMetrics) :
  sessions <> [] ->
  ((exists s, In s sessions /\
      (octave_readable (lowest_note s) = false \/
       octave_readable (highest_note s) = false)) /\
   _aggregate_daily_metrics sessions = Raise ValueError) \/
  ((forall s, In s sessions ->
      octave_readable (lowest_note s) = true /\
      octave_readable (highest_note s) = true) /\
   exists d,
     _aggregate_daily_metrics sessions = Return (Some d) /\
     session_count d = List.length sessions /\
     mean_pitch_avg d = arithmetic_mean (map mean_pitch sessions) /\
     vibrato_rate_avg d = arithmetic_mean (map vibrato_rate sessions) /\
     jitter_avg d = arithmetic_mean (map jitter sessions) /\
     shimmer_avg d = arithmetic_mean (map shimmer sessions) /\
     mode dynamics sessions = Return (dynamics_mode d) /\
     mode voice_type sessions = Return (voice_type_mode d) /\
     (List.length sessions = 1%nat -> pitch_stability d = 0) /\
     ((2 <= List.length sessions)%nat ->
      pitch_stability d
      = sample_standard_deviation (map mean_pitch sessions))).
Proof using set_iter_ok.
  intros Hne.
  destruct (mode_first_greatest dynamics sessions Hne)
    as (dyn & _ & _ & Hdyn & _).
  destruct (mode_first_greatest voice_type sessions Hne)
    as (vt & _ & _ & Hvt & _).
  destruct sessions as [|first rest]; [congruence|].
  unfold _aggregate_daily_metrics.
  set (sessions := first :: rest) in *.
  assert (Hmap : forall (B : Type) (f : SessionMetrics -> B),
             map f sessions <> []).
  { intros B f. subst sessions. discriminate. }
  clearbody sessions.
  rewrite Hdyn, Hvt. cbn [bind].
  destruct (extremum Rltb (fun x => _note_to_frequency (lowest_note x)) sessions)
    as [lo|e] eqn:Hlo; cbn [bind].
  2: { left. apply extremum_raises in Hlo; [|assumption].
       apply (note_key_raises lowest_note) in Hlo.
       destruct Hlo as (-> & s & Hs & Hr).
       split; [exists s; auto|reflexivity]. }
  destruct (extremum Rgtb (fun x => _note_to_frequency (highest_note x)) sessions)
    as [hi|e] eqn:Hhi; cbn [bind].
  2: { left. apply extremum_raises in Hhi; [|assumption].
       apply (note_key_raises highest_note) in Hhi.
       destruct Hhi as (-> & s & Hs & Hr).
       split; [exists s; auto|reflexivity]. }
  destruct (extremum_returns Z.gtb Return (map timestamp sessions))
    as (latest & -> & _); [apply Hmap|intros; eexists; reflexivity|].
  destruct (extremum_returns Z.ltb Return (map timestamp sessions))
    as (earliest & -> & _); [apply Hmap|intros; eexists; reflexivity|].
  cbn [bind].
  rewrite !statistics_mean_nonempty by apply Hmap. cbn [bind].
  right. split.
  { intros s Hs. split.
    - apply (note_key_returns lowest_note sessions); [|assumption].
      apply (extremum_keys_return _ _ _ _ Hlo).
    - apply (note_key_returns highest_note sessions); [|assumption].
      apply (extremum_keys_return _ _ _ _ Hhi). }
  rewrite length_map.
  destruct (1 <? List.length sessions)%nat eqn:Hlen.
  - apply Nat.ltb_lt in Hlen.
    rewrite statistics_stdev_sample by (rewrite length_map; lia).
    cbn [bind]. eexists. split; [reflexivity|].
    cbn. repeat split; try reflexivity. intros H. lia.
  - apply Nat.ltb_ge in Hlen.
    cbn [bind]. eexists. split; [reflexivity|].
    cbn. repeat split; try reflexivity. intros H. lia.
Qed.

Lemma all_readable_not_some_unreadable (sessions : list SessionMetrics) :
  (forall s, In s sessions ->
     octave_readable (lowest_note s) = true /\
     octave_readable (highest_note s) = true) ->
  ~ exists s, In s sessions /\
      (octave_readable (lowest_note s) = false \/
       octave_readable (highest_note s) = false).
Proof.
  intros Hall (s & Hs & Hbad). destruct (Hall s Hs) as [Hlo Hhi].
  destruct Hbad; congruence.
Qed.

(** C5 (what the code does): the empty list gives [None]; a non-empty list
    whose notes all have a readable octave gives a [DailyMetrics] whose
    session_count is the length of the list and whose four averages are the
    arithmetic means of the fields.  But a non-empty list with a note whose
    octave cannot be read gives no [DailyMetrics]: the aggregator raises
    [ValueError], as on the one session [flat_note_session]. *)
Theorem aggregate_counts_and_means (sessions : list SessionMetrics) :
  _aggregate_daily_metrics [] = Return None /\
  (sessions <> [] ->
   (forall s, In s sessions ->
      octave_readable (lowest_note s) = true /\
      octave_readable (highest_note s) = true) ->
   exists d,
     _aggregate_daily_metrics sessions = Return (Some d) /\
     session_count d = List.length sessions /\
     mean_pitch_avg d = arithmetic_mean (map mean_pitch sessions) /\
     vibrato_rate_avg d = arithmetic_mean (map vibrato_rate sessions) /\
     jitter_avg d = arithmetic_mean (map jitter sessions) /\
     shimmer_avg d = arithmetic_mean (map shimmer sessions)) /\
  ((exists s, In s sessions /\
      (octave_readable (lowest_note s) = false \/
       octave_readable (highest_note s) = false)) ->
   _aggregate_daily_metrics sessions = Raise ValueError) /\
  _aggregate_daily_metrics [flat_note_session] = Raise ValueError.
Proof using set_iter_ok.
  split; [reflexivity|]. split; [|split].
  - intros Hne Hall.
    destruct (aggregate_result sessions Hne) as [[Hbad _]|[_ Hd]].
    + exfalso. exact (all_readable_not_some_unreadable sessions Hall Hbad).
    + destruct Hd as (d & Hagg & Hn & Hmp & Hvr & Hj & Hs & _).
      exists d. repeat split; assumption.
  - intros Hbad.
    assert (Hne : sessions <> []).
    { destruct Hbad as (s & Hs & _). intros ->. destruct Hs. }
    destruct (aggregate_result sessions Hne) as [[_ Hraise]|[Hall _]].
    + exact Hraise.
    + exfalso. exact (all_readable_not_some_unreadable sessions Hall Hbad).
  - destruct (aggregate_result [flat_note_session]) as [[_ Hraise]|[Hall _]].
    + discriminate.
    + exact Hraise.
    + exfalso. destruct (Hall flat_note_session) as [Hlo _].
      * left; reflexivity.
      * discriminate Hlo.
Qed.

(** C6 (what the code does): when the aggregator returns, that is when
    every note has a readable octave, pitch_stability is 0 for one session
    and the sample standard deviation (N - 1 denominator) of the mean_pitch
    values for two or more.  On a list with a note whose octave cannot be
    read, such as the one session [flat_note_session], it raises
    [ValueError] and there is no pitch_stability. *)
Theorem pitch_stability_is_sample_deviation (sessions : list SessionMetrics) :
  (sessions <> [] ->
   (forall s, In s sessions ->
      octave_readable (lowest_note s) = true /\
      octave_readable (highest_note s) = true) ->
   exists d,
     _aggregate_daily_metrics sessions = Return (Some d) /\
     (List.length sessions = 1%nat -> pitch_stability d = 0) /\
     ((2 <= List.length sessions)%nat ->
      pitch_stability d
      = sample_standard_deviation (map mean_pitch sessions))) /\
  _aggregate_daily_metrics [flat_note_session] = Raise ValueError.
Proof using set_iter_ok.
  split.
  - intros Hne Hall.
    destruct (aggregate_result sessions Hne) as [[Hbad _]|[_ Hd]].
    + exfalso. exact (all_readable_not_some_unreadable sessions Hall Hbad).
    + destruct Hd as (d & Hagg & _ & _ & _ & _ & _ & _ & _ & Hone & Hmore).
      exists d. repeat split; assumption.
  - destruct (aggregate_result [flat_note_session]) as [[_ Hraise]|[Hall _]].
    + discriminate.
    + exact Hraise.
    + exfalso. destruct (Hall flat_note_session) as [Hlo _].
      * left; reflexivity.
      * discriminate Hlo.
Qed.

(** C4, as amended: when the aggregator returns, dynamics_mode and
    voice_type_mode are values of the sessions with the greatest number of
    occurrences, and among values tied for it the one chosen is the first
    in the iteration order of the set of distinct values (every value
    iterated before it occurs strictly less often), not the first in the
    order of the sessions. *)
Theorem mode_first_in_set_order (sessions : list SessionMetrics)
  (d : DailyMetrics) :
  _aggregate_daily_metrics sessions = Return (Some d) ->
  (In (dynamics_mode d) (map dynamics sessions) /\
   (forall x, (occurrences dynamics sessions x
               <= occurrences dynamics sessions (dynamics_mode d))%nat) /\
   exists before after,
     set_iter (map dynamics sessions) = before ++ dynamics_mode d :: after /\
     forall x, In x before ->
       (occurrences dynamics sessions x
        < occurrences dynamics sessions (dynamics_mode d))%nat) /\
  (In (voice_type_mode d) (map voice_type sessions) /\
   (forall x, (occurrences voice_type sessions x
               <= occurrences voice_type sessions (voice_type_mode d))%nat) /\
   exists before after,
     set_iter (map voice_type sessions) = before ++ voice_type_mode d :: after /\
     forall x, In x before ->
       (occurrences voice_type sessions x
        < occurrences voice_type sessions (voice_type_mode d))%nat).
Proof using set_iter_ok.
  intros Hagg.
  assert (Hne : sessions <> []).
  { intros ->. discriminate Hagg. }
  destruct (aggregate_result sessions Hne) as [[_ Hraise]|[_ Hd]];
    [congruence|].
  destruct Hd as (d' & Hagg' & _ & _ & _ & _ & _ & Hdyn & Hvt & _).
  rewrite Hagg in Hagg'. injection Hagg' as <-.
  split.
  - destruct (mode_greatest dynamics sessions _ Hne Hdyn) as [Hin Hmax].
    destruct (mode_first_greatest dynamics sessions Hne)
      as (m & l1 & l2 & Hm & Hset & Hbefore & _).
    rewrite Hdyn in Hm. injection Hm as <-.
    repeat split; try assumption. exists l1, l2. split; assumption.
  - destruct (mode_greatest voice_type sessions _ Hne Hvt) as [Hin Hmax].
    destruct (mode_first_greatest voice_type sessions Hne)
      as (m & l1 & l2 & Hm & Hset & Hbefore & _).
    rewrite Hvt in Hm. injection Hm as <-.
    repeat split; try assumption. exists l1, l2. split; assumption.
Qed.

End Aggregation.

(** *** The comparisons of a report *)

Lemma aggregate_session_count (sessions : list SessionMetrics)
  (d : DailyMetrics) :
  _aggregate_daily_metrics sessions = Return (Some d) ->
  session_count d = List.length sessions.
Proof.
  unfold _aggregate_daily_metrics.
  destruct sessions as [|first rest]; [discriminate|].
  repeat match goal with
         | |- context [bind ?m _] =>
             destruct m; cbn [bind]; try discriminate
         end.
  intros [= <-]. reflexivity.
Qed.

(** The five entries of the metrics table, in the order they are set. *)
Lemma comparisons_keys (daily_metrics : DailyMetrics)
  (previous_metrics : option DailyMetrics) :
  map fst (comparisons daily_metrics previous_metrics)
  = ["mean_pitch"; "vibrato_rate"; "jitter"; "shimmer"; "total_sessions"].
Proof. reflexivity. Qed.

(** Every entry takes its trend and its percentage from the trend engine,
    called twice with the same two numbers. *)
Lemma comparisons_from_engine (daily_metrics : DailyMetrics)
  (previous_metrics : option DailyMetrics) (k : string)
  (mc : MetricComparison) :
  In (k, mc) (comparisons daily_metrics previous_metrics) ->
  exists cur prev,
    trend mc = snd (_calculate_improvement cur prev) /\
    improvement_percentage mc = Some (fst (_calculate_improvement cur prev)).
Proof.
  intros [H|[H|[H|[H|[H|[]]]]]]; injection H as _ <-;
    eexists; eexists; split; reflexivity.
Qed.

(** The entries on a first day: nothing to compare with. *)
Lemma comparisons_first_day (daily_metrics : DailyMetrics) (k : string)
  (mc : MetricComparison) :
  In (k, mc) (comparisons daily_metrics None) ->
  previous mc = None /\
  trend mc = "baseline" /\
  improvement_percentage mc = Some 0 /\
  change mc = Some (if String.eqb k "total_sessions"
                    then INR (session_count daily_metrics) else 0).
Proof.
  intros [H|[H|[H|[H|[H|[]]]]]]; injection H as <- <-;
    cbn [previous trend improvement_percentage change if_previous String.eqb
         Ascii.eqb Bool.eqb];
    rewrite ?calculate_improvement_same, ?calculate_improvement_zero;
    cbn [fst snd value]; repeat split; f_equal; ring.
Qed.

(** C10: in every entry of the metrics of a report, the trend and the
    improvement percentage agree: up with a percentage of at least 1, down
    with one of at most -1, baseline with one of absolute value below 1. *)
Theorem report_trend_matches_percentage (user_id date : string)
  (r : FetchAiReport) (k : string) (mc : MetricComparison) :
  generate_daily_report user_id date = Return r ->
  In (k, mc) (metrics r) ->
  exists pct,
    improvement_percentage mc = Some pct /\
    (trend mc = "up" -> 1 <= pct) /\
    (trend mc = "down" -> pct <= -1) /\
    (trend mc = "baseline" -> Rabs pct < 1) /\
    (trend mc = "up" \/ trend mc = "down" \/ trend mc = "baseline").
Proof.
  unfold generate_daily_report.
  destruct (generate_daily_report_body user_id date) as [r'|e] eqn:Hbody;
    cbn [try_except]; intros [= <-]; [|intros []].
  apply generate_daily_report_body_returns in Hbody.
  destruct Hbody
    as [->|(ss & dm & pd & ps & pm & ai & _ & _ & _ & _ & _ & _ & _ & ->)];
    [intros []|].
  cbn [metrics]. intros Hin.
  apply comparisons_from_engine in Hin.
  destruct Hin as (cur & prev & -> & ->).
  eexists. split; [reflexivity|].
  destruct (calculate_improvement_consistent cur prev)
    as [[Ht Hp]|[[Ht Hp]|[Ht Hp]]]; rewrite Ht;
    repeat split; auto; try discriminate.
Qed.

(** C2, as amended: in a report made with sessions today and none the day
    before, every entry of the metrics has no previous value, the trend
    baseline and an improvement of 0; the change is 0 for mean_pitch,
    vibrato_rate, jitter and shimmer, which are compared with themselves,
    and it is the number of sessions for total_sessions, which is compared
    with 0.  The table is empty (the fallback report) or has these five
    entries. *)
Theorem first_day_comparisons (user_id date : string)
  (sessions : list SessionMetrics) (r : FetchAiReport) :
  _get_daily_sessions 0 user_id date = Return sessions ->
  sessions <> [] ->
  (forall previous_date,
     previous_day date = Return previous_date ->
     _get_daily_sessions 2 user_id previous_date = Return []) ->
  generate_daily_report user_id date = Return r ->
  (metrics r = [] \/
   map fst (metrics r)
   = ["mean_pitch"; "vibrato_rate"; "jitter"; "shimmer"; "total_sessions"]) /\
  forall k mc,
    In (k, mc) (metrics r) ->
    previous mc = None /\
    trend mc = "baseline" /\
    improvement_percentage mc = Some 0 /\
    change mc = Some (if String.eqb k "total_sessions"
                      then INR (List.length sessions) else 0).
Proof.
  intros Htoday Hne Hnone.
  unfold generate_daily_report.
  destruct (generate_daily_report_body user_id date) as [r'|e] eqn:Hbody;
    cbn [try_except]; intros [= <-];
    [|split; [left; reflexivity|intros ? ? []]].
  apply generate_daily_report_body_returns in Hbody.
  destruct Hbody
    as [->|(ss & dm & pd & ps & pm & ai & Hss & _ & Hagg & Hpd & Hps & Hpm & _ & ->)];
    [split; [left; reflexivity|intros ? ? []]|].
  rewrite Htoday in Hss. injection Hss as <-.
  rewrite (Hnone pd Hpd) in Hps. injection Hps as <-.
  rewrite (Hpm eq_refl). cbn [metrics].
  split; [right; apply comparisons_keys|].
  intros k mc Hin.
  rewrite <- (aggregate_session_count sessions dm Hagg).
  apply comparisons_first_day. exact Hin.
Qed.

(** *** Further properties: the session store *)

Lemma session_of_row_converts (row : Row) :
  row_converts row ->
  exists s,
    session_of_row row = Return s /\
    mean_pitch s = get (row_mean_pitch row) 0 /\
    vibrato_rate s = get (row_vibrato_rate row) 0 /\
    jitter s = get (row_jitter row) 0 /\
    shimmer s = get (row_shimmer row) 0 /\
    dynamics s = get (row_dynamics row) "stable" /\
    voice_type s = get (row_voice_type row) "unknown" /\
    lowest_note s = get (row_lowest_note row) "C3" /\
    highest_note s = get (row_highest_note row) "C5".
Proof.
  intros (created_at & t & Hc & Ht). unfold session_of_row.
  rewrite Hc. cbn [getitem bind]. rewrite Ht. cbn [bind].
  eexists. split; [reflexivity|]. repeat split.
Qed.

Lemma session_of_row_fails (row : Row) :
  ~ row_converts row -> exists e, session_of_row row = Raise e.
Proof.
  intros Hno. unfold session_of_row.
  destruct (row_created_at row) as [created_at|] eqn:Hc;
    cbn [getitem bind]; [|eexists; reflexivity].
  destruct (fromisoformat (replace_char "Z" "+00:00" created_at))
    as [t|e] eqn:Ht; cbn [bind]; [|eexists; reflexivity].
  exfalso. apply Hno. exists created_at, t. split; assumption.
Qed.

Lemma map_result_all {A B : Type} (f : A -> result B) (P : A -> B -> Prop)
  (l : list A) :
  (forall x, In x l -> exists y, f x = Return y /\ P x y) ->
  exists ys, map_result f l = Return ys /\ Forall2 P l ys.
Proof.
  induction l as [|x l IH]; intros H; cbn [map_result].
  - exists []. split; [reflexivity|constructor].
  - destruct (H x) as (y & Hy & HP); [left; reflexivity|].
    rewrite Hy. cbn [bind].
    destruct IH as (ys & Hys & HF); [intros; apply H; right; assumption|].
    rewrite Hys. cbn [bind]. exists (y :: ys).
    split; [reflexivity|constructor; assumption].
Qed.

Lemma map_result_one_fails {A B : Type} (f : A -> result B) (l : list A)
  (x : A) :
  In x l -> (exists e, f x = Raise e) -> exists e, map_result f l = Raise e.
Proof.
  induction l as [|y l IH]; intros Hin Hx; [destruct Hin|].
  cbn [map_result]. destruct (f y) as [b|e] eqn:Hy; cbn [bind];
    [|eexists; reflexivity].
  destruct Hin as [->|Hin].
  - destruct Hx as [e He]. rewrite He in Hy. discriminate.
  - destruct (IH Hin Hx) as [e ->]. cbn [bind]. eexists; reflexivity.
Qed.

(** X7: with a client, the day's sessions are all or nothing.  When every
    row has a [created_at] that parses, there is one session per row, in
    order, each missing measurement replaced by its default (0, "stable",
    "unknown", "C3", "C5").  When one row has none, or the query raises,
    the day is empty: the rows that would convert are dropped too. *)
Theorem get_daily_sessions_all_or_nothing
  (query : string -> string -> string -> result (list Row)) (reads : nat)
  (user_id date : string) :
  supabase = Some query ->
  (forall e,
     query user_id (date +++ "T00:00:00") (date +++ "T23:59:59") = Raise e ->
     _get_daily_sessions reads user_id date = Return []) /\
  (forall rows,
     query user_id (date +++ "T00:00:00") (date +++ "T23:59:59") = Return rows ->
     ((forall row, In row rows -> row_converts row) ->
      exists sessions,
        _get_daily_sessions reads user_id date = Return sessions /\
        Forall2 (fun row s =>
                   mean_pitch s = get (row_mean_pitch row) 0 /\
                   vibrato_rate s = get (row_vibrato_rate row) 0 /\
                   jitter s = get (row_jitter row) 0 /\
                   shimmer s = get (row_shimmer row) 0 /\
                   dynamics s = get (row_dynamics row) "stable" /\
                   voice_type s = get (row_voice_type row) "unknown" /\
                   lowest_note s = get (row_lowest_note row) "C3" /\
                   highest_note s = get (row_highest_note row) "C5")
                rows sessions) /\
     ((exists row, In row rows /\ ~ row_converts row) ->
      _get_daily_sessions reads user_id date = Return [])).
Proof.
  intros Hclient. split.
  - intros e He. exact (get_daily_sessions_store_error query reads _ _ e Hclient He).
  - intros rows Hrows. unfold _get_daily_sessions. rewrite Hclient, Hrows.
    cbn [bind]. split.
    + intros Hall.
      destruct (map_result_all session_of_row
                  (fun row s =>
                     mean_pitch s = get (row_mean_pitch row) 0 /\
                     vibrato_rate s = get (row_vibrato_rate row) 0 /\
                     jitter s = get (row_jitter row) 0 /\
                     shimmer s = get (row_shimmer row) 0 /\
                     dynamics s = get (row_dynamics row) "stable" /\
                     voice_type s = get (row_voice_type row) "unknown" /\
                     lowest_note s = get (row_lowest_note row) "C3" /\
                     highest_note s = get (row_highest_note row) "C5") rows)
        as (sessions & Hmap & HF).
      { intros row Hrow. apply session_of_row_converts, Hall, Hrow. }
      exists sessions. split; [|exact HF].
      destruct rows as [|row rows].
      * cbn [map_result] in Hmap. injection Hmap as <-. reflexivity.
      * rewrite Hmap. reflexivity.
    + intros (row & Hrow & Hno).
      destruct rows as [|row0 rows]; [destruct Hrow|].
      destruct (map_result_one_fails session_of_row (row0 :: rows) row Hrow
                  (session_of_row_fails row Hno)) as [e ->].
      reflexivity.
Qed.

(** *** Further properties: the text generator *)

(** X8: with the ASI-1 key set, every failure of the exchange gives the
    fixed fallback pair, and nothing is raised: a failing post, a status
    other than 200, a response without the message content, content that is
    JSON but no object, or a [json.loads] error other than
    [JSONDecodeError]. *)
Theorem ai_failure_gives_fallback (metrics_data user_context : string) :
  use_ai = true ->
  match requests_post (prompt metrics_data user_context) with
  | Raise _ => True
  | Return response =>
      status_code response <> 200%Z \/
      (exists e, message_content response = Raise e) \/
      (exists content,
         message_content response = Return content /\
         (json_loads content = Return JsonOther \/
          exists e, json_loads content = Raise e /\ e <> JSONDecodeError))
  end ->
  _get_ai_insights metrics_data user_context = Return _get_fallback_insights.
Proof.
  intros Hai. unfold _get_ai_insights. rewrite Hai. cbn [negb].
  destruct (requests_post (prompt metrics_data user_context))
    as [response|e]; cbn [bind try_except]; [|reflexivity].
  intros [Hstatus|[[e He]|(content & Hc & Hjson)]].
  - apply Z.eqb_neq in Hstatus. rewrite Hstatus. reflexivity.
  - destruct (status_code response =? 200)%Z; [|reflexivity].
    rewrite He. reflexivity.
  - destruct (status_code response =? 200)%Z; [|reflexivity].
    rewrite Hc. cbn [bind].
    destruct Hjson as [->|(e & -> & Hne)]; [reflexivity|].
    destruct e; try reflexivity. contradiction Hne. reflexivity.
Qed.

Lemma firstn_In {A : Type} (n : nat) (l : list A) (x : A) :
  In x (firstn n l) -> In x l.
Proof.
  revert l. induction n as [|n IH]; intros l; [intros []|].
  destruct l as [|y l]; [intros []|].
  cbn [firstn In]. intros [->|H]; [left; reflexivity|right; apply IH, H].
Qed.

(** X9: a reply of status 200 that is not JSON is read line by line: the
    insights are the first three lines at most that contain "insight" or
    "improved", whatever the case of the letters, the recommendations the
    first three at most that contain "recommend" or "try". *)
Theorem ai_text_reply_is_filtered (metrics_data user_context : string)
  (response : Response) (content : string) :
  use_ai = true ->
  requests_post (prompt metrics_data user_context) = Return response ->
  status_code response = 200%Z ->
  message_content response = Return content ->
  json_loads content = Raise JSONDecodeError ->
  exists found_insights found_recommendations,
    _get_ai_insights metrics_data user_context
    = Return (found_insights, found_recommendations) /\
    (List.length found_insights <= 3)%nat /\
    (List.length found_recommendations <= 3)%nat /\
    (forall line, In line found_insights ->
       In line (split LF content) /\
       contains "insight" (lower line) || contains "improved" (lower line)
       = true) /\
    (forall line, In line found_recommendations ->
       In line (split LF content) /\
       contains "recommend" (lower line) || contains "try" (lower line)
       = true).
Proof.
  intros Hai Hpost Hstatus Hcontent Hjson.
  unfold _get_ai_insights. rewrite Hai, Hpost. cbn [negb bind].
  rewrite Hstatus, Hcontent. cbn [Z.eqb Pos.eqb bind].
  rewrite Hjson. cbn [try_except].
  eexists; eexists. split; [reflexivity|].
  split; [apply firstn_le_length|]. split; [apply firstn_le_length|].
  split; intros line Hin; apply firstn_In in Hin;
    apply filter_In in Hin; exact Hin.
Qed.

(** X10: a reply of status 200 that is a JSON object is passed on as it is:
    the lists under "insights" and "recommendations", of any length, and
    the empty list for a key that is missing, not the fallback texts. *)
Theorem ai_json_reply_passes_through (metrics_data user_context : string)
  (response : Response) (content : string)
  (insights_key recommendations_key : option (list string)) :
  use_ai = true ->
  requests_post (prompt metrics_data user_context) = Return response ->
  status_code response = 200%Z ->
  message_content response = Return content ->
  json_loads content = Return (JsonObject insights_key recommendations_key) ->
  _get_ai_insights metrics_data user_context
  = Return (match insights_key with Some l => l | None => [] end,
            match recommendations_key with Some l => l | None => [] end).
Proof.
  intros Hai Hpost Hstatus Hcontent Hjson.
  unfold _get_ai_insights. rewrite Hai, Hpost. cbn [negb bind].
  rewrite Hstatus, Hcontent. cbn [Z.eqb Pos.eqb bind].
  rewrite Hjson. reflexivity.
Qed.

(** *** Further properties: the aggregator *)

(** The scan keeps an item whose key is at least as good as every key:
    [at_least_as_good k k'] is [k <= k'] for [min] and [k' <= k] for
    [max]. *)
Lemma scan_best {A K : Type} (better : K -> K -> bool)
  (at_least_as_good : K -> K -> Prop) :
  (forall k, at_least_as_good k k) ->
  (forall a b c, at_least_as_good a b -> at_least_as_good b c ->
                 at_least_as_good a c) ->
  (forall a b, better a b = true -> at_least_as_good a b) ->
  (forall a b, better a b = false -> at_least_as_good b a) ->
  forall (rest : list (A * K)) (best : A * K),
  exists km,
    In (scan better best rest, km) (best :: rest) /\
    forall p, In p (best :: rest) -> at_least_as_good km (snd p).
Proof.
  intros Hrefl Htrans Hyes Hno.
  induction rest as [|y rest IH]; intros best; cbn [scan].
  - exists (snd best). split.
    + left. destruct best; reflexivity.
    + intros p [<-|[]]. apply Hrefl.
  - destruct (IH (if better (snd y) (snd best) then y else best))
      as (km & Hin & Hall).
    exists km. split.
    + destruct Hin as [Hin|Hin]; [|right; right; exact Hin].
      destruct (better (snd y) (snd best));
        [right; left; exact Hin|left; exact Hin].
    + assert (Hkept : at_least_as_good km
                        (snd (if better (snd y) (snd best) then y else best))).
      { apply Hall. left; reflexivity. }
      intros p [<-|[<-|Hp]].
      * destruct (better (snd y) (snd best)) eqn:Hb; [|exact Hkept].
        apply (Htrans _ (snd y)); [exact Hkept|apply Hyes, Hb].
      * destruct (better (snd y) (snd best)) eqn:Hb; [exact Hkept|].
        apply (Htrans _ (snd best)); [exact Hkept|apply Hno, Hb].
      * apply Hall. right; exact Hp.
Qed.

(** So [max] and [min] return an item of the list whose key is at least as
    good as the key of every item. *)
Lemma extremum_best {A K : Type} (better : K -> K -> bool)
  (at_least_as_good : K -> K -> Prop) (key : A -> result K) (l : list A)
  (m : A) :
  (forall k, at_least_as_good k k) ->
  (forall a b c, at_least_as_good a b -> at_least_as_good b c ->
                 at_least_as_good a c) ->
  (forall a b, better a b = true -> at_least_as_good a b) ->
  (forall a b, better a b = false -> at_least_as_good b a) ->
  extremum better key l = Return m ->
  exists km,
    In m l /\ key m = Return km /\
    forall x kx, In x l -> key x = Return kx -> at_least_as_good km kx.
Proof.
  intros Hrefl Htrans Hyes Hno.
  destruct l as [|x l]; [discriminate|].
  unfold extremum, with_key at 1.
  destruct (key x) as [k|e] eqn:Hx; cbn [bind]; [|discriminate].
  destruct (map_result (with_key key) l) as [ks|e] eqn:Hks;
    cbn [bind]; [|discriminate].
  intros [= <-].
  apply map_result_returns in Hks.
  assert (Hpairs : forall p, In p ((x, k) :: ks) ->
            In (fst p) (x :: l) /\ key (fst p) = Return (snd p)).
  { intros p [<-|Hp]; [split; [left; reflexivity|exact Hx]|].
    clear Hx. induction Hks as [|x' p' l' ks' Hxp _ IH]; [destruct Hp|].
    unfold with_key in Hxp.
    destruct (key x') as [k'|e] eqn:Hk'; cbn [bind] in Hxp; [|discriminate].
    injection Hxp as <-.
    destruct Hp as [<-|Hp].
    - split; [right; left; reflexivity|exact Hk'].
    - destruct (IH Hp) as [[Hin|Hin] Hkey].
      + split; [left; exact Hin|exact Hkey].
      + split; [right; right; exact Hin|exact Hkey]. }
  assert (Hkeys : forall y ky, In y (x :: l) -> key y = Return ky ->
            In (y, ky) ((x, k) :: ks)).
  { intros y ky [<-|Hy] Hky; [left; congruence|]. right.
    clear Hpairs Hx. induction Hks as [|x' p' l' ks' Hxp _ IH]; [destruct Hy|].
    unfold with_key in Hxp.
    destruct Hy as [<-|Hy].
    - left. rewrite Hky in Hxp. cbn [bind] in Hxp. congruence.
    - right. apply IH, Hy. }
  destruct (scan_best better at_least_as_good Hrefl Htrans Hyes Hno ks (x, k))
    as (km & Hin & Hall).
  exists km. destruct (Hpairs _ Hin) as [Hm Hkm]. cbn [fst snd] in Hm, Hkm.
  split; [exact Hm|]. split; [exact Hkm|].
  intros y ky Hy Hky. apply (Hall (y, ky)). apply Hkeys; assumption.
Qed.

(** The parts of an aggregate, as the aggregator computes them. *)
Lemma aggregate_parts (sessions : list SessionMetrics) (d : DailyMetrics) :
  _aggregate_daily_metrics sessions = Return (Some d) ->
  exists lowest highest latest earliest,
    extremum Rltb (fun x => _note_to_frequency (lowest_note x)) sessions
    = Return lowest /\
    extremum Rgtb (fun x => _note_to_frequency (highest_note x)) sessions
    = Return highest /\
    extremum Z.gtb Return (map timestamp sessions) = Return latest /\
    extremum Z.ltb Return (map timestamp sessions) = Return earliest /\
    day_lowest_note d = lowest_note lowest /\
    day_highest_note d = highest_note highest /\
    practice_consistency d = IZR (latest - earliest) / 1000000 / 3600 /\
    date d = strftime_ymd (timestamp (hd lowest sessions)) /\
    mean_pitch_avg d = arithmetic_mean (map mean_pitch sessions) /\
    vibrato_rate_avg d = arithmetic_mean (map vibrato_rate sessions) /\
    jitter_avg d = arithmetic_mean (map jitter sessions) /\
    shimmer_avg d = arithmetic_mean (map shimmer sessions) /\
    (if (1 <? List.length sessions)%nat
     then statistics_stdev (map mean_pitch sessions)
     else Return 0) = Return (pitch_stability d).
Proof.
  unfold _aggregate_daily_metrics.
  destruct sessions as [|first rest]; [discriminate|].
  set (sessions := first :: rest).
  assert (Hmap : forall (B : Type) (f : SessionMetrics -> B),
             map f sessions <> []) by (intros; discriminate).
  assert (Hhd : forall s, hd s sessions = first) by reflexivity.
  clearbody sessions.
  destruct (mode dynamics sessions); cbn [bind]; [|discriminate].
  destruct (mode voice_type sessions); cbn [bind]; [|discriminate].
  destruct (extremum Rltb _ sessions) as [lowest|]; cbn [bind]; [|discriminate].
  destruct (extremum Rgtb _ sessions) as [highest|]; cbn [bind]; [|discriminate].
  destruct (extremum Z.gtb _ _) as [latest|]; cbn [bind]; [|discriminate].
  destruct (extremum Z.ltb _ _) as [earliest|]; cbn [bind]; [|discriminate].
  rewrite !statistics_mean_nonempty by apply Hmap. cbn [bind].
  rewrite length_map.
  destruct (if (1 <? List.length sessions)%nat
            then statistics_stdev (map mean_pitch sessions)
            else Return 0) as [stability|]; cbn [bind]; [|discriminate].
  intros [= <-].
  exists lowest, highest, latest, earliest. cbn. rewrite Hhd.
  repeat split; reflexivity.
Qed.

(** X11: the vocal range of a day.  Its lowest note is the lowest note of
    a session, and no session's lowest note has a smaller frequency; its
    highest note is the highest note of a session, and no session's
    highest note has a greater frequency. *)
Theorem day_range_is_extreme (sessions : list SessionMetrics)
  (d : DailyMetrics) :
  _aggregate_daily_metrics sessions = Return (Some d) ->
  (exists s f,
     In s sessions /\
     day_lowest_note d = lowest_note s /\
     _note_to_frequency (lowest_note s) = Return f /\
     forall s' f', In s' sessions ->
                   _note_to_frequency (lowest_note s') = Return f' ->
                   f <= f') /\
  (exists s f,
     In s sessions /\
     day_highest_note d = highest_note s /\
     _note_to_frequency (highest_note s) = Return f /\
     forall s' f', In s' sessions ->
                   _note_to_frequency (highest_note s') = Return f' ->
                   f' <= f).
Proof.
  intros Hagg.
  destruct (aggregate_parts sessions d Hagg)
    as (lo & hi & _ & _ & Hlo & Hhi & _ & _ & Hdl & Hdh & _).
  split.
  - destruct (extremum_best Rltb Rle
                (fun x => _note_to_frequency (lowest_note x)) sessions lo)
      as (f & Hin & Hf & Hall); try exact Hlo.
    + intros; apply Rle_refl.
    + intros a b c; apply Rle_trans.
    + intros a b H. apply Rltb_true in H. lra.
    + intros a b H. apply Rltb_false in H. exact H.
    + exists lo, f. repeat split; assumption.
  - destruct (extremum_best Rgtb (fun a b => b <= a)
                (fun x => _note_to_frequency (highest_note x)) sessions hi)
      as (f & Hin & Hf & Hall); try exact Hhi.
    + intros; apply Rle_refl.
    + intros a b c Hab Hbc. lra.
    + intros a b H. unfold Rgtb in H. apply Rltb_true in H. lra.
    + intros a b H. unfold Rgtb in H. apply Rltb_false in H. exact H.
    + exists hi, f. repeat split; assumption.
Qed.

(** The time spread of a day is attained by two of its sessions and bounds
    the gap of any two. *)
Lemma widest_gap_of_sessions (sessions : list SessionMetrics)
  (d : DailyMetrics) :
  _aggregate_daily_metrics sessions = Return (Some d) ->
  0 <= practice_consistency d /\
  (exists s1 s2,
     In s1 sessions /\ In s2 sessions /\
     practice_consistency d
     = IZR (timestamp s2 - timestamp s1) / 1000000 / 3600) /\
  (forall s1 s2,
     In s1 sessions -> In s2 sessions ->
     IZR (timestamp s2 - timestamp s1) / 1000000 / 3600
     <= practice_consistency d).
Proof.
  intros Hagg.
  destruct (aggregate_parts sessions d Hagg)
    as (_ & _ & latest & earliest & _ & _ & Hlatest & Hearliest & _ & _
        & Hpc & _).
  destruct (extremum_best Z.gtb (fun a b => (b <= a)%Z) Return
              (map timestamp sessions) latest)
    as (k1 & Hin1 & Hk1 & Hmax); try exact Hlatest.
  { intros; apply Z.le_refl. }
  { intros a b c Hab Hbc. lia. }
  { intros a b H. apply Z.gtb_lt in H. lia. }
  { intros a b H. rewrite Z.gtb_ltb in H. apply Z.ltb_ge in H. exact H. }
  destruct (extremum_best Z.ltb Z.le Return (map timestamp sessions) earliest)
    as (k2 & Hin2 & Hk2 & Hmin); try exact Hearliest.
  { intros; apply Z.le_refl. }
  { intros a b c; apply Z.le_trans. }
  { intros a b H. apply Z.ltb_lt in H. lia. }
  { intros a b H. apply Z.ltb_ge in H. exact H. }
  injection Hk1 as <-. injection Hk2 as <-.
  assert (Hgap : forall t1 t2 : Z, (t2 - t1 <= latest - earliest)%Z ->
            IZR (t2 - t1) / 1000000 / 3600
            <= IZR (latest - earliest) / 1000000 / 3600).
  { intros t1 t2 H. apply IZR_le in H. lra. }
  rewrite Hpc. split; [|split].
  - assert (H : (earliest - earliest <= latest - earliest)%Z).
    { specialize (Hmax earliest earliest Hin2 eq_refl). cbn in Hmax. lia. }
    apply Hgap in H. rewrite Z.sub_diag in H. lra.
  - apply in_map_iff in Hin1. destruct Hin1 as (s2 & <- & Hs2).
    apply in_map_iff in Hin2. destruct Hin2 as (s1 & <- & Hs1).
    exists s1, s2. repeat split; assumption.
  - intros s1 s2 Hs1 Hs2. apply Hgap.
    assert (H1 : (earliest <= timestamp s1)%Z).
    { apply (Hmin (timestamp s1) _ (in_map timestamp _ _ Hs1) eq_refl). }
    assert (H2 : (timestamp s2 <= latest)%Z).
    { apply (Hmax (timestamp s2) _ (in_map timestamp _ _ Hs2) eq_refl). }
    lia.
Qed.

(** X12: practice_consistency is the widest gap between two sessions of
    the day, in hours: it is the time from one session of the list to
    another, no two sessions are further apart, and it is never negative
    (0 when all sessions carry the same instant, as one session does). *)
Theorem practice_consistency_is_widest_gap (sessions : list SessionMetrics)
  (d : DailyMetrics) :
  _aggregate_daily_metrics sessions = Return (Some d) ->
  0 <= practice_consistency d /\
  (exists s1 s2,
     In s1 sessions /\ In s2 sessions /\
     practice_consistency d
     = IZR (timestamp s2 - timestamp s1) / 1000000 / 3600) /\
  (forall s1 s2,
     In s1 sessions -> In s2 sessions ->
     IZR (timestamp s2 - timestamp s1) / 1000000 / 3600
     <= practice_consistency d).
Proof.
  intros Hagg.
  destruct (widest_gap_of_sessions sessions d Hagg) as (Hpos & Hgap & Hmax).
  split; [exact Hpos|]. split; [exact Hgap|exact Hmax].
Qed.

Lemma fsum_bounds (data : list R) (lo hi : R) :
  (forall x, In x data -> lo <= x <= hi) ->
  INR (List.length data) * lo <= fsum data <= INR (List.length data) * hi.
Proof.
  induction data as [|x data IH]; intros H.
  - cbn. lra.
  - cbn [fsum fold_right List.length]. fold (fsum data). rewrite S_INR.
    destruct (H x (or_introl eq_refl)).
    destruct IH; [intros; apply H; right; assumption|]. lra.
Qed.

Lemma arithmetic_mean_bounds (data : list R) (lo hi : R) :
  data <> [] ->
  (forall x, In x data -> lo <= x <= hi) ->
  lo <= arithmetic_mean data <= hi.
Proof.
  intros Hne H. unfold arithmetic_mean.
  assert (Hn : 0 < INR (List.length data)).
  { apply lt_0_INR. destruct data; [congruence|cbn; lia]. }
  destruct (fsum_bounds data lo hi H) as [Hlo Hhi].
  set (n := INR (List.length data)) in *.
  assert (Heq : fsum data / n * n = fsum data) by (field; lra).
  split; nra.
Qed.

(** X13: each of the four averages of a day lies between the smallest and
    the largest value of its measurement over the sessions: an average
    never leaves the range of what was measured. *)
Theorem averages_within_measurements (sessions : list SessionMetrics)
  (d : DailyMetrics) (lo hi : R) :
  _aggregate_daily_metrics sessions = Return (Some d) ->
  ((forall s, In s sessions -> lo <= mean_pitch s <= hi) ->
   lo <= mean_pitch_avg d <= hi) /\
  ((forall s, In s sessions -> lo <= vibrato_rate s <= hi) ->
   lo <= vibrato_rate_avg d <= hi) /\
  ((forall s, In s sessions -> lo <= jitter s <= hi) ->
   lo <= jitter_avg d <= hi) /\
  ((forall s, In s sessions -> lo <= shimmer s <= hi) ->
   lo <= shimmer_avg d <= hi).
Proof.
  intros Hagg.
  assert (Hne : sessions <> []) by (intros ->; discriminate Hagg).
  destruct (aggregate_parts sessions d Hagg)
    as (_ & _ & _ & _ & _ & _ & _ & _ & _ & _ & _ & _
        & Hmp & Hvr & Hj & Hs & _).
  assert (Hfield : forall f : SessionMetrics -> R,
            (forall s, In s sessions -> lo <= f s <= hi) ->
            lo <= arithmetic_mean (map f sessions) <= hi).
  { intros f H. apply arithmetic_mean_bounds.
    - destruct sessions; [exfalso; apply Hne; reflexivity|discriminate].
    - intros x Hx. apply in_map_iff in Hx. destruct Hx as (s & <- & Hin).
      apply H, Hin. }
  rewrite Hmp, Hvr, Hj, Hs.
  repeat split; try (apply Hfield; assumption);
    match goal with
    | Hf : forall s, In s sessions -> _ |- _ => apply (Hfield _ Hf)
    end.
Qed.

Lemma fsum_constant (data : list R) (c : R) :
  (forall x, In x data -> x = c) ->
  fsum data = INR (List.length data) * c /\
  fsum (map (fun x => x * x) data) = INR (List.length data) * (c * c).
Proof.
  induction data as [|x data IH]; intros H.
  - cbn. split; ring.
  - cbn [fsum fold_right List.length map].
    fold (fsum data). fold (fsum (map (fun x => x * x) data)).
    rewrite S_INR, (H x (or_introl eq_refl)).
    destruct IH as [-> ->]; [intros; apply H; right; assumption|].
    split; ring.
Qed.

(** X14: pitch_stability is never negative, and it is 0 when all sessions
    of the day have the same mean pitch. *)
Theorem pitch_stability_of_steady_day (sessions : list SessionMetrics)
  (d : DailyMetrics) :
  _aggregate_daily_metrics sessions = Return (Some d) ->
  0 <= pitch_stability d /\
  (forall pitch,
     (forall s, In s sessions -> mean_pitch s = pitch) ->
     pitch_stability d = 0).
Proof.
  intros Hagg.
  destruct (aggregate_parts sessions d Hagg)
    as (_ & _ & _ & _ & _ & _ & _ & _ & _ & _ & _ & _ & _ & _ & _ & _ & Hst).
  destruct (1 <? List.length sessions)%nat eqn:Hlen.
  - apply Nat.ltb_lt in Hlen. unfold statistics_stdev in Hst.
    rewrite length_map in Hst.
    replace (List.length sessions <? 2)%nat with false in Hst
      by (symmetry; apply Nat.ltb_ge; lia).
    injection Hst as <-. split; [apply sqrt_pos|].
    intros pitch Hsame.
    destruct (fsum_constant (map mean_pitch sessions) pitch) as [Hsx Hsxx].
    { intros x Hx. apply in_map_iff in Hx. destruct Hx as (s & <- & Hin).
      apply Hsame, Hin. }
    rewrite Hsx, Hsxx, length_map.
    assert (Hn : INR (List.length sessions) <> 0).
    { apply not_0_INR. lia. }
    assert (Hn1 : INR (List.length sessions) - 1 <> 0).
    { assert (1 < INR (List.length sessions)).
      { replace 1 with (INR 1) by reflexivity. apply lt_INR. lia. }
      lra. }
    match goal with
    | |- sqrt ?x = 0 => replace x with 0 by (field; split; assumption)
    end.
    apply sqrt_0.
  - injection Hst as <-. split; [lra|reflexivity].
Qed.

(** *** Further properties: the report *)

(** X15: a note whose octave cannot be read costs the whole report.  When
    a session of the day, or of the day before, has such a note, the
    report is the fallback report, which says that no session was
    recorded, although the store returned sessions for the day. *)
Theorem unreadable_note_gives_fallback (user_id date : string)
  (sessions : list SessionMetrics) :
  set_order_ok set_iter ->
  _get_daily_sessions 0 user_id date = Return sessions ->
  sessions <> [] ->
  ((exists s, In s sessions /\
      (octave_readable (lowest_note s) = false \/
       octave_readable (highest_note s) = false)) \/
   (exists previous_date previous_sessions s,
      previous_day date = Return previous_date /\
      _get_daily_sessions 2 user_id previous_date = Return previous_sessions /\
      In s previous_sessions /\
      (octave_readable (lowest_note s) = false \/
       octave_readable (highest_note s) = false))) ->
  generate_daily_report user_id date
  = Return (_generate_fallback_report user_id date).
Proof.
  intros Hset Htoday Hne Hbad.
  unfold generate_daily_report, generate_daily_report_body.
  rewrite Htoday. cbn [bind].
  destruct sessions as [|s0 sessions]; [reflexivity|].
  destruct (aggregate_result Hset (s0 :: sessions) Hne)
    as [[_ Hraise]|[Hall (d & Hagg & _)]].
  - rewrite Hraise. reflexivity.
  - rewrite Hagg. cbn [bind].
    destruct Hbad as [Hbad|(pd & ps & s & Hpd & Hps & Hs & Hbad)].
    + exfalso.
      exact (all_readable_not_some_unreadable (s0 :: sessions) Hall Hbad).
    + rewrite Hpd. cbn [bind]. rewrite Hps. cbn [bind].
      destruct ps as [|p0 ps]; [destruct Hs|].
      destruct (aggregate_result Hset (p0 :: ps)) as [[_ Hraise]|[Hall' _]];
        [discriminate| |].
      * rewrite Hraise. reflexivity.
      * exfalso.
        apply (all_readable_not_some_unreadable (p0 :: ps) Hall').
        exists s. split; assumption.
Qed.


Lemma comparisons_against_previous (daily_metrics previous_metrics : DailyMetrics)
  (k : string) (mc : MetricComparison) :
  In (k, mc) (comparisons daily_metrics (Some previous_metrics)) ->
  exists prev,
    previous mc = Some prev /\
    change mc = Some (current mc - prev) /\
    trend mc = snd (_calculate_improvement (current mc) prev) /\
    improvement_percentage mc
    = Some (fst (_calculate_improvement (current mc) prev)).
Proof.
  intros [H|[H|[H|[H|[H|[]]]]]]; injection H as _ <-;
    eexists; repeat split; reflexivity.
Qed.

(** X17: in every entry of a report that has a previous value, the change
    is current minus previous, and the improvement percentage is that
    change as a percentage of the previous value, or 0 with the trend
    baseline when the previous value is 0. *)
Theorem change_and_percentage_agree (user_id date : string)
  (r : FetchAiReport) (k : string) (mc : MetricComparison) (prev : R) :
  generate_daily_report user_id date = Return r ->
  In (k, mc) (metrics r) ->
  previous mc = Some prev ->
  exists delta,
    change mc = Some delta /\
    delta = current mc - prev /\
    (prev <> 0 -> improvement_percentage mc = Some (delta / prev * 100)) /\
    (prev = 0 ->
     improvement_percentage mc = Some 0 /\ trend mc = "baseline").
Proof.
  unfold generate_daily_report.
  destruct (generate_daily_report_body user_id date) as [r'|e] eqn:Hbody;
    cbn [try_except]; intros [= <-]; [|intros []].
  apply generate_daily_report_body_returns in Hbody.
  destruct Hbody
    as [->|(ss & dm & pd & ps & pm & ai & _ & _ & _ & _ & _ & _ & _ & ->)];
    [intros []|].
  cbn [metrics]. intros Hin Hprev.
  destruct pm as [p|].
  - apply comparisons_against_previous in Hin.
    destruct Hin as (prev' & Hp & Hc & Ht & Hi).
    rewrite Hp in Hprev. injection Hprev as ->.
    exists (current mc - prev). split; [exact Hc|]. split; [reflexivity|].
    rewrite Ht, Hi.
    destruct (calculate_improvement_cases (current mc) prev)
      as [[H0 H]|[(Hnz & _ & H)|[(Hnz & _ & H)|(Hnz & _ & H)]]];
      rewrite H; cbn [fst snd]; split; intros Hx;
      try contradiction; try reflexivity; try (split; reflexivity).
  - apply comparisons_first_day in Hin. destruct Hin as (Hnone & _).
    rewrite Hnone in Hprev. discriminate.
Qed.

(** X18: a report that is not the fallback report counts the sessions the
    store returned for the day: practice_sessions is their number and
    total_practice_time fifteen minutes for each; its id is
    ["report_<user>_<date>"], its metrics are the five entries, and its
    best time of day is always the same text. *)
Theorem report_counts_sessions (user_id date : string) (r : FetchAiReport) :
  generate_daily_report user_id date = Return r ->
  r = _generate_fallback_report user_id date \/
  exists sessions,
    _get_daily_sessions 0 user_id date = Return sessions /\
    sessions <> [] /\
    practice_sessions r = List.length sessions /\
    total_practice_time r = 15 * INR (List.length sessions) /\
    report_id r = "report_" +++ user_id +++ "_" +++ date /\
    report_date r = date /\
    best_time_of_day r = "Morning (9-11 AM)" /\
    map fst (metrics r)
    = ["mean_pitch"; "vibrato_rate"; "jitter"; "shimmer"; "total_sessions"] /\
    exists mc, dict_get (metrics r) "total_sessions" = Some mc /\
               current mc = INR (List.length sessions).
Proof.
  unfold generate_daily_report.
  destruct (generate_daily_report_body user_id date) as [r'|e] eqn:Hbody;
    cbn [try_except]; intros [= <-]; [|left; reflexivity].
  apply generate_daily_report_body_returns in Hbody.
  destruct Hbody
    as [->|(ss & dm & pd & ps & pm & ai & Hss & Hne & Hagg & _ & _ & _ & _ & ->)];
    [left; reflexivity|].
  right. exists ss.
  pose proof (aggregate_session_count ss dm Hagg) as Hcount.
  cbn [practice_sessions total_practice_time report_id report_date
       best_time_of_day metrics].
  rewrite Hcount.
  split; [exact Hss|]. split; [exact Hne|]. split; [reflexivity|].
  split; [rewrite mult_INR; cbn; lra|].
  split; [reflexivity|]. split; [reflexivity|]. split; [reflexivity|].
  split; [apply comparisons_keys|].
  eexists. split; [reflexivity|]. cbn [current]. rewrite Hcount. reflexivity.
Qed.

(** A day whose averages and number of sessions equal those of the day
    before: every entry is baseline, with no change. *)
Lemma comparisons_of_equal_days (daily_metrics previous_metrics : DailyMetrics)
  (k : string) (mc : MetricComparison) :
  mean_pitch_avg daily_metrics = mean_pitch_avg previous_metrics ->
  vibrato_rate_avg daily_metrics = vibrato_rate_avg previous_metrics ->
  jitter_avg daily_metrics = jitter_avg previous_metrics ->
  shimmer_avg daily_metrics = shimmer_avg previous_metrics ->
  session_count daily_metrics = session_count previous_metrics ->
  In (k, mc) (comparisons daily_metrics (Some previous_metrics)) ->
  previous mc = Some (current mc) /\
  change mc = Some 0 /\
  trend mc = "baseline" /\
  improvement_percentage mc = Some 0.
Proof.
  intros Hmp Hvr Hj Hs Hn.
  intros [H|[H|[H|[H|[H|[]]]]]]; injection H as _ <-;
    cbn [previous current trend improvement_percentage change if_previous];
    rewrite <- ?Hmp, <- ?Hvr, <- ?Hj, <- ?Hs, <- ?Hn;
    rewrite calculate_improvement_same;
    cbn [fst snd]; repeat split; f_equal; ring.
Qed.

(** Without a client every day is the demonstration day: two sessions,
    the same as the day before. *)
Lemma demonstration_report (user_id date previous_date : string) :
  supabase = None ->
  set_order_ok set_iter ->
  previous_day date = Return previous_date ->
  exists r,
    generate_daily_report user_id date = Return r /\
    report_id r = "report_" +++ user_id +++ "_" +++ date /\
    practice_sessions r = 2%nat /\
    total_practice_time r = 30 /\
    summary r = "Consistent practice maintained with 2 sessions today. Your vocal technique continues to develop steadily." /\
    (exists mc, dict_get (metrics r) "mean_pitch" = Some mc /\
                current mc = 222.8) /\
    (forall k mc, In (k, mc) (metrics r) ->
       previous mc = Some (current mc) /\
       change mc = Some 0 /\
       trend mc = "baseline" /\
       improvement_percentage mc = Some 0) /\
    (use_ai = false ->
     insights r
     = ["Your pitch stability has improved by 15% this week!";
        "Consider practicing in the morning for better vocal clarity.";
        "Your vibrato rate is within optimal range for your voice type."]).
Proof.
  intros Hnone Hset Hdate.
  unfold generate_daily_report, generate_daily_report_body.
  unfold _get_daily_sessions at 1. rewrite Hnone. cbn [bind].
  match goal with
  | |- context [_aggregate_daily_metrics ?l] =>
      destruct (aggregate_result Hset l) as [[Hbad _]|[_ Hd]];
      [discriminate| |]
  end.
  { exfalso. destruct Hbad as (s & [<-|[<-|[]]] & [H|H]); discriminate H. }
  destruct Hd as (d & -> & Hn & Hmp & Hvr & Hj & Hs & _).
  cbn [bind]. rewrite Hdate. cbn [bind].
  unfold _get_daily_sessions at 1. rewrite Hnone. cbn [bind].
  match goal with
  | |- context [_aggregate_daily_metrics ?l] =>
      destruct (aggregate_result Hset l) as [[Hbad _]|[_ Hp]];
      [discriminate| |]
  end.
  { exfalso. destruct Hbad as (s & [<-|[<-|[]]] & [H|H]); discriminate H. }
  destruct Hp as (p & -> & Hn' & Hmp' & Hvr' & Hj' & Hs' & _).
  cbn [bind map mean_pitch vibrato_rate jitter shimmer List.length]
    in Hn, Hmp, Hvr, Hj, Hs, Hn', Hmp', Hvr', Hj', Hs'.
  destruct (get_ai_insights_returns
              (metrics_text date d)
              ("User " +++ user_id +++ " practicing vocal techniques with "
               +++ str_of_nat (session_count d) +++ " sessions on " +++ date))
    as [ai Hai].
  rewrite Hai. cbn [bind try_except].
  eexists. split; [reflexivity|].
  cbn [report_id practice_sessions total_practice_time summary metrics insights].
  split; [reflexivity|]. split; [exact Hn|].
  split; [rewrite Hn; cbn; lra|].
  split; [unfold _generate_summary; rewrite Hn, Hn'; reflexivity|].
  split.
  - eexists. split; [reflexivity|]. cbn [current]. rewrite Hmp.
    unfold arithmetic_mean. cbn. lra.
  - split.
    + intros k mc Hin.
      apply (comparisons_of_equal_days d p k mc); try congruence.
    + intros Hoff. unfold _get_ai_insights in Hai. rewrite Hoff in Hai.
      cbn [negb] in Hai. injection Hai as <-. reflexivity.
Qed.

Lemma fsum_permutation (l l' : list R) :
  Permutation l l' -> fsum l = fsum l'.
Proof.
  induction 1 as [|x l l' _ IH|x y l|l l' l'' _ IH1 _ IH2]; cbn [fsum fold_right].
  - reflexivity.
  - fold (fsum l) (fsum l'). rewrite IH. reflexivity.
  - fold (fsum l). ring.
  - congruence.
Qed.

(** X20: the numbers of a day do not depend on the order in which the
    store returns the sessions: for two orders of the same sessions the
    session count, the four averages, pitch_stability and
    practice_consistency are equal.  (The date, and the modes and notes
    when values tie, may differ.) *)
Theorem numeric_aggregates_ignore_order (sessions sessions' : list SessionMetrics)
  (d d' : DailyMetrics) :
  Permutation sessions sessions' ->
  _aggregate_daily_metrics sessions = Return (Some d) ->
  _aggregate_daily_metrics sessions' = Return (Some d') ->
  session_count d = session_count d' /\
  mean_pitch_avg d = mean_pitch_avg d' /\
  vibrato_rate_avg d = vibrato_rate_avg d' /\
  jitter_avg d = jitter_avg d' /\
  shimmer_avg d = shimmer_avg d' /\
  pitch_stability d = pitch_stability d' /\
  practice_consistency d = practice_consistency d'.
Proof.
  intros Hperm Hagg Hagg'.
  assert (Hlen : List.length sessions = List.length sessions')
    by (apply Permutation_length, Hperm).
  assert (Hmean : forall f : SessionMetrics -> R,
            arithmetic_mean (map f sessions) = arithmetic_mean (map f sessions')).
  { intros f. unfold arithmetic_mean. rewrite !length_map, Hlen.
    rewrite (fsum_permutation _ _ (Permutation_map f Hperm)). reflexivity. }
  destruct (aggregate_parts sessions d Hagg)
    as (_ & _ & _ & _ & _ & _ & _ & _ & _ & _ & _ & _
        & Hmp & Hvr & Hj & Hs & Hst).
  destruct (aggregate_parts sessions' d' Hagg')
    as (_ & _ & _ & _ & _ & _ & _ & _ & _ & _ & _ & _
        & Hmp' & Hvr' & Hj' & Hs' & Hst').
  rewrite (aggregate_session_count _ _ Hagg), (aggregate_session_count _ _ Hagg').
  rewrite Hmp, Hvr, Hj, Hs, Hmp', Hvr', Hj', Hs'.
  repeat (split; [solve [exact Hlen | apply Hmean]|]).
  split.
  - assert (Hsd : statistics_stdev (map mean_pitch sessions)
                  = statistics_stdev (map mean_pitch sessions')).
    { unfold statistics_stdev. rewrite !length_map, Hlen.
      rewrite (fsum_permutation _ _ (Permutation_map mean_pitch Hperm)).
      rewrite (fsum_permutation _ _
                 (Permutation_map (fun x => x * x)
                    (Permutation_map mean_pitch Hperm))).
      reflexivity. }
    rewrite Hlen, Hsd, Hst' in Hst. injection Hst as <-. reflexivity.
  - destruct (widest_gap_of_sessions sessions d Hagg)
      as (_ & (s1 & s2 & Hs1 & Hs2 & Hgap) & Hmax).
    destruct (widest_gap_of_sessions sessions' d' Hagg')
      as (_ & (s1' & s2' & Hs1' & Hs2' & Hgap') & Hmax').
    apply Rle_antisym.
    + rewrite Hgap. apply Hmax'; apply (Permutation_in _ Hperm); assumption.
    + rewrite Hgap'.
      apply Hmax; apply (Permutation_in _ (Permutation_sym Hperm)); assumption.
Qed.

End FetchAiVocalCoach.

(** ** The properties on the examples *)

Lemma last_seen_order_ok : set_order_ok last_seen_order.
Proof.
  intros l. unfold last_seen_order. split.
  - apply NoDup_nodup.
  - intros x. rewrite nodup_In. symmetry. apply in_rev.
Qed.

Lemma first_seen_order_ok : set_order_ok first_seen_order.
Proof.
  intros l. unfold first_seen_order. split.
  - apply NoDup_rev, NoDup_nodup.
  - intros x. rewrite <- in_rev, nodup_In. symmetry. apply in_rev.
Qed.

(** One session with readable notes is aggregated to a count of 1 and to
    its own values. *)
Lemma aggregate_counts_and_means_one_session :
  exists d,
    _aggregate_daily_metrics second_of_march first_seen_order [tenor_session]
    = Return (Some d) /\
    session_count d = 1%nat /\
    mean_pitch_avg d = arithmetic_mean [220.5].
Proof.
  destruct (aggregate_counts_and_means second_of_march first_seen_order
              first_seen_order_ok [tenor_session]) as (_ & H & _).
  destruct H as (d & Hagg & Hcount & Hmean & _).
  - discriminate.
  - intros s [<-|[]]. split; reflexivity.
  - exists d. repeat split; assumption.
Defined.

(** Two sessions with readable notes: the stability is the sample standard
    deviation of the two mean pitches. *)
Lemma pitch_stability_of_two_sessions :
  exists d,
    _aggregate_daily_metrics second_of_march first_seen_order
      [loud_session; soft_session] = Return (Some d) /\
    pitch_stability d = sample_standard_deviation [220.5; 225.1].
Proof.
  destruct (pitch_stability_is_sample_deviation second_of_march
              first_seen_order first_seen_order_ok
              [loud_session; soft_session]) as (H & _).
  destruct H as (d & Hagg & _ & Hmore).
  - discriminate.
  - intros s [<-|[<-|[]]]; split; reflexivity.
  - exists d. split; [assumption|]. apply Hmore. apply le_n.
Defined.

(** With the set iterated from the last value seen to the first, the two
    sessions are aggregated and the mode is one of their values. *)
Lemma mode_first_in_set_order_two_sessions :
  exists d,
    _aggregate_daily_metrics second_of_march last_seen_order
      [loud_session; soft_session] = Return (Some d) /\
    In (dynamics_mode d) ["loud"; "soft"].
Proof.
  eexists. split; [reflexivity|].
  apply (mode_first_in_set_order second_of_march last_seen_order
           last_seen_order_ok [loud_session; soft_session] _ eq_refl).
Defined.

(** C4, refuted as stated: "loud" and "soft" occur once each and "loud" is
    first in the sequence of sessions, yet with a set that iterates "soft"
    first the aggregator's dynamics_mode is "soft". *)
Lemma mode_tie_not_first_in_sequence :
  set_order_ok last_seen_order /\
  exists d,
    _aggregate_daily_metrics second_of_march last_seen_order
      [loud_session; soft_session] = Return (Some d) /\
    occurrences dynamics [loud_session; soft_session] "loud" = 1%nat /\
    occurrences dynamics [loud_session; soft_session] "soft" = 1%nat /\
    map dynamics [loud_session; soft_session] = ["loud"; "soft"] /\
    dynamics_mode d = "soft".
Proof.
  split; [exact last_seen_order_ok|].
  eexists. split; [reflexivity|].
  repeat split.
Qed.

(** A day without a session in the example store gives the fallback
    report. *)
Lemma no_sessions_gives_fallback_report_on_empty_day :
  exists r,
    generate_daily_report (Some one_day_store) false unreachable_endpoint
      no_json midnight any_instant second_of_march march_calendar no_digits
      first_seen_order "u" "2024-03-05" = Return r /\
    report_id r = "fallback_u_2024-03-05" /\
    metrics r = [].
Proof.
  destruct (no_sessions_gives_fallback_report (Some one_day_store) false
              unreachable_endpoint no_json midnight any_instant
              second_of_march march_calendar no_digits first_seen_order
              "u" "2024-03-05" eq_refl)
    as (r & Hr & Hid & _ & _ & Hmetrics & _).
  exists r. repeat split; assumption.
Defined.

(** The report of the one day with a session: the jitter entry is baseline
    with a percentage below 1 in absolute value. *)
Lemma report_trend_matches_percentage_on_first_day :
  exists r mc pct,
    generate_daily_report (Some one_day_store) false unreachable_endpoint
      no_json midnight any_instant second_of_march march_calendar no_digits
      first_seen_order "u" "2024-03-02" = Return r /\
    In ("jitter", mc) (metrics r) /\
    improvement_percentage mc = Some pct /\
    (trend mc = "baseline" -> Rabs pct < 1).
Proof.
  eexists. eexists.
  match goal with
  | |- exists pct, ?G /\ ?I /\ _ =>
      assert (Hr : G) by reflexivity;
      assert (Hin : I) by (right; right; left; reflexivity)
  end.
  destruct (report_trend_matches_percentage _ _ _ _ _ _ _ _ _ _ _ _ _ _ _
              Hr Hin) as (pct & Hpct & _ & _ & Hbase & _).
  exists pct. repeat split; assumption.
Defined.

(** The first day of the example store: one session, none the day before,
    and every entry of the report is baseline with no previous value. *)
Lemma first_day_comparisons_on_first_day :
  exists r,
    generate_daily_report (Some one_day_store) false unreachable_endpoint
      no_json midnight any_instant second_of_march march_calendar no_digits
      first_seen_order "u" "2024-03-02" = Return r /\
    map fst (metrics r)
    = ["mean_pitch"; "vibrato_rate"; "jitter"; "shimmer"; "total_sessions"] /\
    forall k mc, In (k, mc) (metrics r) ->
                 previous mc = None /\ trend mc = "baseline".
Proof.
  eexists.
  match goal with
  | |- ?G /\ _ => assert (Hr : G) by reflexivity
  end.
  assert (Hne : [tenor_session] <> []) by discriminate.
  assert (Hnone : forall previous_date,
             march_calendar "2024-03-02" = Return previous_date ->
             _get_daily_sessions (Some one_day_store) midnight any_instant 2
               "u" previous_date = Return []).
  { intros previous_date [= <-]. reflexivity. }
  destruct (first_day_comparisons (Some one_day_store) false
              unreachable_endpoint no_json midnight any_instant
              second_of_march march_calendar no_digits first_seen_order
              "u" "2024-03-02" [tenor_session] _ eq_refl Hne Hnone Hr)
    as [_ Hall].
  split; [exact Hr|]. split; [reflexivity|].
  intros k mc Hin. destruct (Hall k mc Hin) as (Hp & Ht & _).
  split; assumption.
Defined.

(** C2, refuted as stated: with one session today and none the day before,
    the total_sessions entry of the report has no previous value and the
    trend baseline, but its change is 1, the number of sessions, not 0. *)
Lemma first_day_total_sessions_change :
  exists r mc,
    _get_daily_sessions (Some one_day_store) midnight any_instant 0
      "u" "2024-03-02" = Return [tenor_session] /\
    _get_daily_sessions (Some one_day_store) midnight any_instant 2
      "u" "2024-03-01" = Return [] /\
    generate_daily_report (Some one_day_store) false unreachable_endpoint
      no_json midnight any_instant second_of_march march_calendar no_digits
      first_seen_order "u" "2024-03-02" = Return r /\
    dict_get (metrics r) "total_sessions" = Some mc /\
    previous mc = None /\
    change mc = Some 1 /\
    Some 1 <> Some 0.
Proof.
  eexists. eexists.
  split; [reflexivity|]. split; [reflexivity|]. split; [reflexivity|].
  split; [reflexivity|]. split; [reflexivity|]. split.
  - cbn [change]. f_equal. cbn [if_previous session_count List.length INR].
    lra.
  - intros [= H]. lra.
Qed.

(** ** Further properties of the note-frequency converter *)

Lemma index_str_in (x : string) (l : list string) (i : Z) :
  index x l = Return i -> str_in x l = true.
Proof.
  revert i. induction l as [|y l IH]; intros i; cbn [index str_in].
  - discriminate.
  - destruct (String.eqb x y); [reflexivity|]. cbn [orb].
    destruct (index x l) as [j|e]; [|discriminate].
    intros _. apply (IH j). reflexivity.
Qed.

Lemma str_in_false_index (x : string) (l : list string) :
  str_in x l = false -> exists e, index x l = Raise e.
Proof.
  intros H. destruct (index x l) as [i|e] eqn:Hi; [|eexists; reflexivity].
  apply index_str_in in Hi. rewrite H in Hi. discriminate.
Qed.

(** A note with a position on the scale converts to
    [440 * 2 ** ((position - 57) / 12)], 57 being the position of A4. *)
Lemma note_to_frequency_of_semitone (note : string) (k : Z) :
  semitone note = Some k ->
  _note_to_frequency note = Return (440 * Rpower 2 ((IZR k - 57) / 12)).
Proof.
  unfold semitone, _note_to_frequency.
  destruct (String.length note <? 2)%nat; [discriminate|].
  destruct (str_last note) as [c|e]; [|discriminate].
  destruct (index (str_init note) note_names) as [i|e] eqn:Hi; [|discriminate].
  cbn [bind]. unfold int_of_char.
  destruct (is_digit c); [|discriminate].
  set (o := Z.of_nat (nat_of_ascii c - 48)).
  intros Hk.
  assert (Hk' : k = (12 * o + i)%Z) by congruence.
  rewrite Hk'. cbn [bind].
  rewrite (index_str_in _ _ _ Hi). cbn [negb bind].
  do 3 f_equal. rewrite plus_IZR, mult_IZR. field.
Qed.

(** X1: a note of a recognised pitch class and octave digit has a positive
    frequency, and two such notes compare as their positions on the
    chromatic scale: the lower note has the lower frequency, notes at the
    same position the same. *)
Theorem note_frequency_follows_scale (note1 note2 : string) (k1 k2 : Z) :
  semitone note1 = Some k1 ->
  semitone note2 = Some k2 ->
  exists f1 f2,
    _note_to_frequency note1 = Return f1 /\
    _note_to_frequency note2 = Return f2 /\
    0 < f1 /\
    (f1 < f2 <-> (k1 < k2)%Z) /\
    (f1 = f2 <-> k1 = k2).
Proof.
  intros H1 H2.
  apply note_to_frequency_of_semitone in H1, H2.
  eexists; eexists. split; [exact H1|]. split; [exact H2|].
  assert (Hpos : forall x, 0 < Rpower 2 x) by (intros; apply exp_pos).
  assert (Hlt : forall a b : Z, (a < b)%Z ->
            Rpower 2 ((IZR a - 57) / 12) < Rpower 2 ((IZR b - 57) / 12)).
  { intros a b Hab. apply Rpower_lt; [lra|].
    apply IZR_lt in Hab. lra. }
  split; [specialize (Hpos ((IZR k1 - 57) / 12)); lra|]. split; split.
  - intros Hf. destruct (Z_lt_le_dec k1 k2) as [|Hge]; [assumption|exfalso].
    destruct (Z.eq_dec k1 k2) as [->|Hne]; [lra|].
    assert (Hgt : (k2 < k1)%Z) by lia.
    apply Hlt in Hgt. lra.
  - intros Hk. apply Hlt in Hk. lra.
  - intros Hf. destruct (Z.lt_total k1 k2) as [Hk|[Hk|Hk]];
      [apply Hlt in Hk; lra|assumption|apply Hlt in Hk; lra].
  - intros ->. reflexivity.
Qed.


(** X3: when the conversion returns, the frequency is never negative, and it
    is 0 exactly for a note of fewer than two characters or one whose
    pitch class (all but the last character) is not of the twelve names:
    a flat such as ["Bb3"] or an octave of two digits such as ["C10"]. *)
Theorem zero_frequency_iff_unrecognised (note : string) (f : R) :
  _note_to_frequency note = Return f ->
  0 <= f /\
  (f = 0 <->
   (String.length note < 2)%nat \/
   str_in (str_init note) note_names = false).
Proof.
  unfold _note_to_frequency.
  destruct (String.length note <? 2)%nat eqn:Hlen.
  - intros [= <-]. apply Nat.ltb_lt in Hlen. split; [lra|].
    split; auto.
  - apply Nat.ltb_ge in Hlen.
    destruct (str_last note) as [c|e]; cbn [bind]; [|discriminate].
    destruct (int_of_char c) as [o|e]; cbn [bind]; [|discriminate].
    destruct (str_in (str_init note) note_names) eqn:Hin; cbn [negb].
    + destruct (index (str_init note) note_names) as [i|e];
        cbn [bind]; [|discriminate].
      intros [= <-].
      assert (0 < Rpower 2 ((IZR i - 9) / 12 + (IZR o - 4))) by apply exp_pos.
      split; [lra|]. split.
      * intros H0. exfalso. lra.
      * intros [Hshort|Hno]; [lia|discriminate].
    + intros [= <-]. split; [lra|]. split; auto.
Qed.

(** The three on examples: A4 and A5, C#3 and C#4, and the flat B of the
    third octave. *)
Lemma note_frequency_follows_scale_a4_a5 :
  exists f1 f2,
    _note_to_frequency "A4" = Return f1 /\
    _note_to_frequency "A5" = Return f2 /\
    f1 < f2.
Proof.
  destruct (note_frequency_follows_scale "A4" "A5" 57 69 eq_refl eq_refl)
    as (f1 & f2 & H1 & H2 & _ & Hlt & _).
  exists f1, f2. repeat split; try assumption. apply Hlt. reflexivity.
Defined.


Lemma zero_frequency_iff_unrecognised_flat :
  _note_to_frequency "Bb3" = Return 0 /\ 0 <= 0.
Proof.
  split; [reflexivity|].
  exact (proj1 (zero_frequency_iff_unrecognised "Bb3" 0 eq_refl)).
Defined.

(** ** Further properties of the trend engine *)



Lemma percentage_bounds (current previous : R) :
  0 < previous ->
  let pct := (current - previous) / previous * 100 in
  (1 <= pct <-> 1.01 * previous <= current) /\
  (pct <= -1 <-> current <= 0.99 * previous).
Proof.
  intros Hp pct.
  assert (Heq : pct * previous = (current - previous) * 100).
  { unfold pct. field. lra. }
  split; split; intros H; nra.
Qed.

(** X5: against a positive previous value the trend is up exactly when
    the current value is at least 1% above it, down exactly when it is at
    least 1% below it, and baseline strictly in between. *)
Theorem trend_thresholds (current previous : R) :
  0 < previous ->
  (snd (_calculate_improvement current previous) = "up"
   <-> 1.01 * previous <= current) /\
  (snd (_calculate_improvement current previous) = "down"
   <-> current <= 0.99 * previous) /\
  (snd (_calculate_improvement current previous) = "baseline"
   <-> 0.99 * previous < current < 1.01 * previous).
Proof.
  intros Hp.
  destruct (percentage_bounds current previous Hp) as [Hup Hdown].
  destruct (calculate_improvement_cases current previous)
    as [[H0 _]|[(_ & Hc & H)|[(_ & Hc & H)|(_ & Hc & H)]]];
    [lra| | |]; rewrite H; cbn [snd].
  - apply Rabs_def2 in Hc.
    assert (~ 1.01 * previous <= current) by (intros Hx; apply Hup in Hx; lra).
    assert (~ current <= 0.99 * previous) by (intros Hx; apply Hdown in Hx; lra).
    repeat split; intros; try discriminate; try lra.
  - apply Hup in Hc.
    repeat split; intros; try discriminate; try lra; try reflexivity.
  - apply Hdown in Hc.
    repeat split; intros; try discriminate; try lra; try reflexivity.
Qed.

Lemma percentage_bounds_negative (current previous : R) :
  previous < 0 ->
  let pct := (current - previous) / previous * 100 in
  (1 <= pct <-> current <= 1.01 * previous) /\
  (pct <= -1 <-> 0.99 * previous <= current).
Proof.
  intros Hp pct.
  assert (Heq : pct * previous = (current - previous) * 100).
  { unfold pct. field. lra. }
  split; split; intros H; nra.
Qed.

(** X6: against a negative previous value the labels are reversed: a
    current value that is greater (by at least 1% of the magnitude) is
    labelled down, one that is smaller is labelled up. *)
Theorem trend_reversed_below_zero (current previous : R) :
  previous < 0 ->
  (0.99 * previous <= current ->
   snd (_calculate_improvement current previous) = "down") /\
  (current <= 1.01 * previous ->
   snd (_calculate_improvement current previous) = "up").
Proof.
  intros Hp.
  destruct (percentage_bounds_negative current previous Hp) as [Hup Hdown].
  destruct (calculate_improvement_cases current previous)
    as [[H0 _]|[(_ & Hc & H)|[(_ & Hc & H)|(_ & Hc & H)]]];
    [lra| | |]; rewrite H; cbn [snd].
  - apply Rabs_def2 in Hc. split; intros Hx.
    + apply Hdown in Hx. lra.
    + apply Hup in Hx. lra.
  - split; intros Hx; [|reflexivity]. apply Hdown in Hx. lra.
  - split; intros Hx; [reflexivity|]. apply Hup in Hx. lra.
Qed.


Lemma trend_thresholds_at_100 :
  snd (_calculate_improvement 101 100) = "up" /\
  snd (_calculate_improvement 99 100) = "down" /\
  snd (_calculate_improvement 100.5 100) = "baseline".
Proof.
  assert (Hp : 0 < 100) by lra.
  split; [|split].
  - apply (proj1 (trend_thresholds 101 100 Hp)). lra.
  - apply (proj1 (proj2 (trend_thresholds 99 100 Hp))). lra.
  - apply (proj2 (proj2 (trend_thresholds 100.5 100 Hp))). lra.
Defined.

Lemma trend_reversed_below_zero_at_minus_10 :
  snd (_calculate_improvement (-5) (-10)) = "down".
Proof.
  assert (Hp : -10 < 0) by lra.
  apply (proj1 (trend_reversed_below_zero (-5) (-10) Hp)). lra.
Defined.

(** ** Further properties: the note range *)


(** ** Further properties: the service without credentials *)

(** X19: a service constructed without the Supabase URL or key (unset or
    empty) has no client and never calls [create_client], and its report
    for any date the calendar accepts is that of the demonstration day:
    two sessions, thirty minutes, every metric at its previous value with
    the trend baseline, and the summary of a day as busy as the one
    before.  It uses the text generator exactly when [ASI_1_API_KEY] is
    set and not empty. *)
Theorem service_without_credentials_reports_demonstration_day
  (getenv : string -> option string)
  (create_client : string -> string -> result Client)
  (requests_post : string -> result Response)
  (json_loads : string -> result Json) (clock : nat -> datetime)
  (fromisoformat : string -> result datetime)
  (strftime_ymd : datetime -> string)
  (previous_day : string -> result string)
  (format_float : nat -> R -> string)
  (set_iter : list string -> list string)
  (user_id date previous_date : string) :
  unset (getenv "SUPABASE_URL") || unset (getenv "SUPABASE_SERVICE_ROLE_KEY")
  = true ->
  set_order_ok set_iter ->
  previous_day date = Return previous_date ->
  exists coach r,
    __init__ getenv create_client = Return coach /\
    self_supabase coach = None /\
    self_use_ai coach = negb (unset (getenv "ASI_1_API_KEY")) /\
    generate_daily_report (self_supabase coach) (self_use_ai coach)
      requests_post json_loads clock fromisoformat strftime_ymd previous_day
      format_float set_iter user_id date = Return r /\
    report_id r = "report_" +++ user_id +++ "_" +++ date /\
    practice_sessions r = 2%nat /\
    total_practice_time r = 30 /\
    summary r = "Consistent practice maintained with 2 sessions today. Your vocal technique continues to develop steadily." /\
    (forall k mc, In (k, mc) (metrics r) ->
       previous mc = Some (current mc) /\
       change mc = Some 0 /\
       trend mc = "baseline" /\
       improvement_percentage mc = Some 0).
Proof.
  intros Hunset Hset Hdate.
  destruct (demonstration_report None (negb (unset (getenv "ASI_1_API_KEY")))
              requests_post json_loads clock fromisoformat strftime_ymd
              previous_day format_float set_iter user_id date previous_date
              eq_refl Hset Hdate)
    as (r & Hr & Hid & Hn & Ht & Hsum & _ & Hall & _).
  eexists. exists r. split.
  - unfold __init__. rewrite Hunset. cbn [bind]. reflexivity.
  - cbn [self_supabase self_use_ai].
    repeat split; try assumption; apply (Hall k mc); assumption.
Qed.

(** ** The further properties on the examples *)


Lemma get_daily_sessions_drops_the_day :
  _get_daily_sessions (Some mixed_store) midnight any_instant 0
    "u" "2024-03-02" = Return [] /\
  exists sessions,
    _get_daily_sessions (Some one_day_store) midnight any_instant 0
      "u" "2024-03-02" = Return sessions /\
    List.length sessions = 1%nat.
Proof.
  destruct (get_daily_sessions_all_or_nothing (Some mixed_store) midnight
              any_instant mixed_store 0 "u" "2024-03-02" eq_refl)
    as [_ Hmixed].
  destruct (get_daily_sessions_all_or_nothing (Some one_day_store) midnight
              any_instant one_day_store 0 "u" "2024-03-02" eq_refl)
    as [_ Hone].
  split.
  - apply (Hmixed [one_row; undated_row] eq_refl).
    exists undated_row. split; [right; left; reflexivity|].
    intros (created_at & t & Hc & _). discriminate Hc.
  - destruct (proj1 (Hone [one_row] eq_refl)) as (sessions & Hs & HF).
    + intros row [<-|[]].
      exists "2024-03-02T10:00:00Z", 0%Z. split; reflexivity.
    + exists sessions. split; [exact Hs|].
      apply Forall2_length in HF. symmetry. exact HF.
Defined.

Lemma ai_failure_gives_fallback_when_busy :
  _get_ai_insights true busy_endpoint no_json "metrics" "context"
  = Return _get_fallback_insights.
Proof.
  apply ai_failure_gives_fallback; [reflexivity|].
  left. discriminate.
Defined.

Lemma ai_text_reply_is_filtered_on_four_lines :
  exists found_insights found_recommendations,
    _get_ai_insights true text_endpoint no_json "metrics" "context"
    = Return (found_insights, found_recommendations) /\
    (List.length found_insights <= 3)%nat /\
    (List.length found_recommendations <= 3)%nat.
Proof.
  destruct (ai_text_reply_is_filtered true text_endpoint no_json
              "metrics" "context" _ _ eq_refl eq_refl eq_refl eq_refl eq_refl)
    as (i & r & H & Hi & Hr & _).
  exists i, r. repeat split; assumption.
Defined.

Lemma ai_json_reply_passes_through_one_key :
  _get_ai_insights true text_endpoint insights_only "metrics" "context"
  = Return (["Good breath support"], []).
Proof.
  exact (ai_json_reply_passes_through true text_endpoint insights_only
           "metrics" "context" _ _ _ _ eq_refl eq_refl eq_refl eq_refl eq_refl).
Defined.

Lemma day_range_of_two_sessions :
  exists d s f,
    _aggregate_daily_metrics second_of_march first_seen_order
      [loud_session; soft_session] = Return (Some d) /\
    In s [loud_session; soft_session] /\
    day_lowest_note d = lowest_note s /\
    _note_to_frequency (lowest_note s) = Return f.
Proof.
  eexists.
  destruct (day_range_is_extreme second_of_march first_seen_order
              [loud_session; soft_session] _ eq_refl)
    as [(s & f & Hin & Hnote & Hf & _) _].
  exists s, f. split; [reflexivity|]. repeat split; assumption.
Defined.

Lemma practice_consistency_of_two_sessions :
  exists d,
    _aggregate_daily_metrics second_of_march first_seen_order
      [loud_session; soft_session] = Return (Some d) /\
    IZR (timestamp soft_session - timestamp loud_session) / 1000000 / 3600
    <= practice_consistency d.
Proof.
  eexists. split; [reflexivity|].
  destruct (practice_consistency_is_widest_gap second_of_march
              first_seen_order [loud_session; soft_session] _ eq_refl)
    as (_ & _ & Hmax).
  apply Hmax; [left; reflexivity|right; left; reflexivity].
Defined.

Lemma averages_within_measurements_of_two_sessions :
  exists d,
    _aggregate_daily_metrics second_of_march first_seen_order
      [loud_session; soft_session] = Return (Some d) /\
    220.5 <= mean_pitch_avg d <= 225.1.
Proof.
  eexists. split; [reflexivity|].
  destruct (averages_within_measurements second_of_march first_seen_order
              [loud_session; soft_session] _ 220.5 225.1 eq_refl)
    as (Hpitch & _).
  apply Hpitch.
  intros s [<-|[<-|[]]]; unfold loud_session, soft_session;
    cbn [mean_pitch]; lra.
Defined.

Lemma pitch_stability_of_steady_day_twice_the_same :
  exists d,
    _aggregate_daily_metrics second_of_march first_seen_order
      [tenor_session; tenor_session] = Return (Some d) /\
    pitch_stability d = 0.
Proof.
  eexists. split; [reflexivity|].
  destruct (pitch_stability_of_steady_day second_of_march first_seen_order
              [tenor_session; tenor_session] _ eq_refl) as (_ & Hsteady).
  apply (Hsteady 220.5). intros s [<-|[<-|[]]]; reflexivity.
Defined.

Lemma numeric_aggregates_ignore_order_of_two_sessions :
  exists d d',
    _aggregate_daily_metrics second_of_march first_seen_order
      [loud_session; soft_session] = Return (Some d) /\
    _aggregate_daily_metrics second_of_march first_seen_order
      [soft_session; loud_session] = Return (Some d') /\
    mean_pitch_avg d = mean_pitch_avg d' /\
    practice_consistency d = practice_consistency d'.
Proof.
  eexists. eexists.
  destruct (numeric_aggregates_ignore_order second_of_march first_seen_order
              [loud_session; soft_session] [soft_session; loud_session] _ _
              (perm_swap soft_session loud_session []) eq_refl eq_refl)
    as (_ & Hmean & _ & _ & _ & _ & Hspread).
  split; [reflexivity|]. split; [reflexivity|].
  split; assumption.
Defined.

Lemma unreadable_note_gives_fallback_on_flat_note :
  generate_daily_report (Some flat_store) false unreachable_endpoint
    no_json midnight any_instant second_of_march march_calendar no_digits
    first_seen_order "u" "2024-03-02"
  = Return (_generate_fallback_report "u" "2024-03-02").
Proof.
  apply (unreadable_note_gives_fallback (Some flat_store) false
           unreachable_endpoint no_json midnight any_instant second_of_march
           march_calendar no_digits first_seen_order "u" "2024-03-02"
           [flat_note_session] first_seen_order_ok eq_refl).
  - discriminate.
  - left. exists flat_note_session.
    split; [left; reflexivity|left; reflexivity].
Defined.


Lemma change_and_percentage_agree_on_demonstration_day :
  exists r mc prev delta,
    generate_daily_report None false unreachable_endpoint no_json midnight
      any_instant second_of_march march_calendar no_digits first_seen_order
      "u" "2024-03-02" = Return r /\
    In ("jitter", mc) (metrics r) /\
    previous mc = Some prev /\
    change mc = Some delta /\
    delta = current mc - prev.
Proof.
  eexists. eexists. eexists.
  match goal with
  | |- exists delta, ?G /\ ?I /\ ?P /\ _ =>
      assert (Hr : G) by reflexivity;
      assert (Hin : I) by (right; right; left; reflexivity);
      assert (Hp : P) by reflexivity
  end.
  destruct (change_and_percentage_agree _ _ _ _ _ _ _ _ _ _ _ _ _ _ _ _
              Hr Hin Hp) as (delta & Hc & Hd & _).
  exists delta. repeat split; assumption.
Defined.

Lemma report_counts_sessions_on_first_day :
  exists r sessions,
    generate_daily_report (Some one_day_store) false unreachable_endpoint
      no_json midnight any_instant second_of_march march_calendar no_digits
      first_seen_order "u" "2024-03-02" = Return r /\
    _get_daily_sessions (Some one_day_store) midnight any_instant 0
      "u" "2024-03-02" = Return sessions /\
    practice_sessions r = List.length sessions.
Proof.
  eexists.
  match goal with
  | |- exists sessions, ?G /\ _ => assert (Hr : G) by reflexivity
  end.
  destruct (report_counts_sessions _ _ _ _ _ _ _ _ _ _ _ _ _ Hr)
    as [Hfallback|(sessions & Hs & _ & Hn & _)].
  - discriminate Hfallback.
  - exists sessions. repeat split; assumption.
Defined.

Lemma service_without_credentials_in_empty_environment :
  exists coach r,
    __init__ empty_environment no_client = Return coach /\
    self_supabase coach = None /\
    self_use_ai coach = false /\
    generate_daily_report (self_supabase coach) (self_use_ai coach)
      unreachable_endpoint no_json midnight any_instant second_of_march
      march_calendar no_digits first_seen_order "u" "2024-03-02" = Return r /\
    practice_sessions r = 2%nat.
Proof.
  destruct (service_without_credentials_reports_demonstration_day
              empty_environment no_client unreachable_endpoint no_json
              midnight any_instant second_of_march march_calendar no_digits
              first_seen_order "u" "2024-03-02" "2024-03-01"
              eq_refl first_seen_order_ok eq_refl)
    as (coach & r & Hinit & Hnone & Hai & Hr & _ & Hn & _).
  exists coach, r. repeat split; assumption.
Defined.
